(** * LanceDB REST server: a shallow embedding of [scripts/lancedb-server.py]

    The embedding follows the Python module top to bottom:
    - Python text, bytes and exceptions;
    - the value normalizer [_to_serializable] and the row materializer
      [_rows_to_dicts];
    - the storage engine (the [lancedb] connection held in the global [db])
      as an interface whose every call may raise;
    - the request models and the route handlers, written in a small
      state / exception / call-log monad.

    The engine is an external collaborator: the handlers are verified against
    every implementation of the interface, and a small in-memory engine is
    given at the end of the definitions to exercise them on concrete data. *)

From Stdlib Require Import ZArith NArith String Ascii Bool Lia PrimFloat List.
From Stdlib.Strings Require Import Byte.
Import ListNotations.

Set Implicit Arguments.
Set Warnings "-register-all".
Local Open Scope Z_scope.

(* ------------------------------------------------------------------------- *)
(** ** Python text and exceptions *)

(** A Python [str] is a sequence of Unicode code points. *)
Definition codepoint := N.
Definition pystr := list codepoint.

(** The text of an ASCII literal of the source. *)
Definition u (s : string) : pystr := map N_of_ascii (list_ascii_of_string s).

Definition pystr_eqb (a b : pystr) : bool :=
  if list_eq_dec N.eq_dec a b then true else false.

(** [str.lower()], on the ASCII letters.  Code points above U+007F are kept:
    the only texts searched for in lowered text are ASCII literals. *)
Definition lower_cp (c : codepoint) : codepoint :=
  if ((65 <=? c) && (c <=? 90))%N then (c + 32)%N else c.

Definition lower (s : pystr) : pystr := map lower_cp s.

Fixpoint startswith (p s : pystr) : bool :=
  match p, s with
  | [], _ => true
  | _ :: _, [] => false
  | a :: p', b :: s' => N.eqb a b && startswith p' s'
  end.

(** [p in s] for two strings. *)
Fixpoint str_in (p s : pystr) : bool :=
  startswith p s ||
  match s with
  | [] => false
  | _ :: s' => str_in p s'
  end.

(** Exceptions.  [HTTPException] is the one FastAPI turns into a response with
    the given status; [Exception msg] stands for any other exception, [msg]
    being its [str(e)].  Both are caught by [except Exception]. *)
Inductive PyExn : Type :=
| HTTPException (status_code : Z) (detail : pystr)
| Exception (msg : pystr).

(** [str(e)]. *)
Definition str_of_exn (e : PyExn) : pystr :=
  match e with
  | HTTPException c d => d
  | Exception m => m
  end.

Inductive PyResult (A : Type) : Type :=
| Ok (a : A)
| Err (e : PyExn).
Arguments Ok {A} a.
Arguments Err {A} e.

Definition rbind {A B} (r : PyResult A) (k : A -> PyResult B) : PyResult B :=
  match r with
  | Ok a => k a
  | Err e => Err e
  end.

(** A list comprehension [[f(v) for v in l]]: elements are evaluated left to
    right and the first exception ends it. *)
Definition mapM {A B} (f : A -> PyResult B) : list A -> PyResult (list B) :=
  fix go (l : list A) : PyResult (list B) :=
    match l with
    | [] => Ok []
    | a :: l' => rbind (f a) (fun b => rbind (go l') (fun bs => Ok (b :: bs)))
    end.

(* ------------------------------------------------------------------------- *)
(** ** [bytes.decode("utf-8", errors=...)] *)

Inductive errors_mode : Type := strict | replace.

Definition REPLACEMENT_CHARACTER : codepoint := 65533%N. (* U+FFFD *)

Definition is_continuation (b : N) : bool := ((128 <=? b) && (b <=? 191))%N.

(** What the decoder does at an ill-formed sequence: [strict] raises
    [UnicodeDecodeError]; [replace] emits U+FFFD for the offending bytes and
    goes on with the rest. *)
Definition decode_error (mode : errors_mode) (msg : string)
    (resume : PyResult pystr) : PyResult pystr :=
  match mode with
  | strict => Err (Exception (u "'utf-8' codec can't decode: " ++ u msg))
  | replace => rbind resume (fun s => Ok (REPLACEMENT_CHARACTER :: s))
  end.

Definition emit (c : codepoint) (rest : PyResult pystr) : PyResult pystr :=
  rbind rest (fun s => Ok (c :: s)).

(** The decoder reads one scalar value at a time.  A lead byte selects the
    length; the second byte is checked against the narrowed ranges that rule
    out overlong forms, surrogates and values above U+10FFFF; an error covers
    the bytes accepted so far (one to three) and decoding resumes at the byte
    that was refused. *)
Fixpoint utf8_decode (mode : errors_mode) (bs : list byte) : PyResult pystr :=
  match bs with
  | [] => Ok []
  | b1 :: r1 =>
    let c1 := Byte.to_N b1 in
    if (c1 <? 128)%N then emit c1 (utf8_decode mode r1)
    else if (c1 <? 194)%N then
      decode_error mode "invalid start byte" (utf8_decode mode r1)
    else if (c1 <? 224)%N then
      match r1 with
      | [] => decode_error mode "unexpected end of data" (Ok [])
      | b2 :: r2 =>
        let c2 := Byte.to_N b2 in
        if is_continuation c2 then
          emit (N.lor (N.shiftl (N.land c1 31) 6) (N.land c2 63))
               (utf8_decode mode r2)
        else decode_error mode "invalid continuation byte" (utf8_decode mode r1)
      end
    else if (c1 <? 240)%N then
      match r1 with
      | [] => decode_error mode "unexpected end of data" (Ok [])
      | b2 :: r2 =>
        let c2 := Byte.to_N b2 in
        if negb (is_continuation c2)
           || (if (c2 <? 160)%N then (c1 =? 224)%N else (c1 =? 237)%N)
        then decode_error mode "invalid continuation byte" (utf8_decode mode r1)
        else
          match r2 with
          | [] => decode_error mode "unexpected end of data" (Ok [])
          | b3 :: r3 =>
            let c3 := Byte.to_N b3 in
            if is_continuation c3 then
              emit (N.lor (N.shiftl (N.land c1 15) 12)
                      (N.lor (N.shiftl (N.land c2 63) 6) (N.land c3 63)))
                   (utf8_decode mode r3)
            else
              decode_error mode "invalid continuation byte" (utf8_decode mode r2)
          end
      end
    else if (c1 <? 245)%N then
      match r1 with
      | [] => decode_error mode "unexpected end of data" (Ok [])
      | b2 :: r2 =>
        let c2 := Byte.to_N b2 in
        if negb (is_continuation c2)
           || (if (c2 <? 144)%N then (c1 =? 240)%N else (c1 =? 244)%N)
        then decode_error mode "invalid continuation byte" (utf8_decode mode r1)
        else
          match r2 with
          | [] => decode_error mode "unexpected end of data" (Ok [])
          | b3 :: r3 =>
            let c3 := Byte.to_N b3 in
            if negb (is_continuation c3) then
              decode_error mode "invalid continuation byte" (utf8_decode mode r2)
            else
              match r3 with
              | [] => decode_error mode "unexpected end of data" (Ok [])
              | b4 :: r4 =>
                let c4 := Byte.to_N b4 in
                if is_continuation c4 then
                  emit (N.lor (N.shiftl (N.land c1 7) 18)
                          (N.lor (N.shiftl (N.land c2 63) 12)
                             (N.lor (N.shiftl (N.land c3 63) 6) (N.land c4 63))))
                       (utf8_decode mode r4)
                else
                  decode_error mode "invalid continuation byte"
                    (utf8_decode mode r3)
              end
          end
      end
    else decode_error mode "invalid start byte" (utf8_decode mode r1)
  end.

(* ------------------------------------------------------------------------- *)
(** ** Runtime values *)

(** What [ndarray.item] finds in one cell, by kind of dtype. *)
Inductive np_item (V : Type) : Type :=
| ItInteger (z : Z)        (* int8 .. uint64 *)
| ItFloating (f : float)   (* float16 .. float64 *)
| ItBool (b : bool)        (* bool_ *)
| ItStr (s : pystr)        (* str_ *)
| ItBytes (bs : list byte) (* bytes_ *)
| ItObject (v : V).        (* dtype=object, or a dtype whose cells convert to
                              another Python object: datetime64, timedelta64,
                              complex, void *)
Arguments ItInteger {V} z.
Arguments ItFloating {V} f.
Arguments ItBool {V} b.
Arguments ItStr {V} s.
Arguments ItBytes {V} bs.

(** An [np.ndarray]: a cell (zero dimensions) or one more axis over arrays. *)
Inductive ndarray (V : Type) : Type :=
| NdItem (x : np_item V)
| NdAxis (xs : list (ndarray V)).

(** What [item()] makes of an [np.timedelta64] scalar: the tick count as an
    [int] (generic, year, month and sub-microsecond units, and spans too long
    for [datetime.timedelta]), a [datetime.timedelta] (weeks to microseconds),
    or [None] (NaT). *)
Inductive timedelta_item : Type :=
| TdInt (ticks : Z)
| TdTimedelta (repr : pystr)
| TdNaT.

(** The values [_to_serializable] tells apart with [isinstance], and the plain
    Python values it leaves alone.  A [dict] keeps its items in insertion
    order; its keys are field names.  [np.integer] has the sized integers and,
    as a subclass of [np.signedinteger], [np.timedelta64].  An arrow array is
    given by what [as_py()] makes of each element: a Python object, or the
    exception it raises when the element has no Python value. *)
Inductive Value : Type :=
| PyNone
| PyBool (b : bool)
| PyInt (z : Z)
| PyFloat (f : float)
| PyStr (s : pystr)
| PyBytes (bs : list byte)
| PyList (l : list Value)
| PyDict (items : list (pystr * Value))
| NpInteger (z : Z)                         (* np.integer scalar: int8 .. uint64 *)
| NpTimedelta64 (it : timedelta_item)       (* np.integer scalar: timedelta64 *)
| NpFloating (f : float)                    (* np.floating scalar *)
| NpBool (b : bool)                         (* np.bool_ scalar *)
| NpNdarray (a : ndarray Value)             (* np.ndarray *)
| PaArray (elems : list (PyResult Value))   (* pa.Array *)
| PaChunkedArray (chunks : list (list (PyResult Value))) (* pa.ChunkedArray *)
| PyObject (repr : pystr).                  (* anything else: datetime, Decimal, ... *)

(** [ndarray.item]: the cell as the nearest builtin Python type. *)
Definition item (x : np_item Value) : Value :=
  match x with
  | ItInteger z => PyInt z
  | ItFloating f => PyFloat f
  | ItBool b => PyBool b
  | ItStr s => PyStr s
  | ItBytes bs => PyBytes bs
  | ItObject v => v
  end.

(** [ndarray.tolist]: nested lists, one level per axis; a zero-dimensional
    array gives the bare scalar. *)
Fixpoint tolist (a : ndarray Value) : Value :=
  match a with
  | NdItem x => item x
  | NdAxis xs => PyList (map tolist xs)
  end.

(** [pa.Array.to_pylist] and [pa.ChunkedArray.to_pylist]: the elements are
    converted in order, and the first one that cannot be ends the call with
    its exception. *)
Definition to_pylist (elems : list (PyResult Value)) : PyResult Value :=
  rbind (mapM (fun x => x) elems) (fun l => Ok (PyList l)).

Definition chunked_to_pylist (chunks : list (list (PyResult Value))) : PyResult Value :=
  to_pylist (concat chunks).

(** [int(value)] for an [np.integer] scalar: the value of a sized integer;
    for a [timedelta64], [int] of its [item()], which raises [TypeError] when
    that is a [datetime.timedelta] or [None]. *)
Definition int_of_timedelta (it : timedelta_item) : PyResult Z :=
  match it with
  | TdInt ticks => Ok ticks
  | TdTimedelta _ =>
    Err (Exception (u "int() argument must be a string, a bytes-like object or a real number, not 'datetime.timedelta'"))
  | TdNaT =>
    Err (Exception (u "int() argument must be a string, a bytes-like object or a real number, not 'NoneType'"))
  end.

(** [d[k] = v]: an existing key keeps its place. *)
Fixpoint dict_setitem (k : pystr) (v : Value) (d : list (pystr * Value))
    : list (pystr * Value) :=
  match d with
  | [] => [(k, v)]
  | (k', v') :: d' =>
    if pystr_eqb k k' then (k', v) :: d' else (k', v') :: dict_setitem k v d'
  end.

(** [d[k]], raising [KeyError]. *)
Fixpoint dict_getitem {A} (k : pystr) (d : list (pystr * A)) : PyResult A :=
  match d with
  | [] => Err (Exception k)
  | (k', v) :: d' => if pystr_eqb k k' then Ok v else dict_getitem k d'
  end.

(** A dict comprehension [{k: f(v) for k, v in items}]. *)
Definition dict_comprehension (f : Value -> PyResult Value)
    : list (pystr * Value) -> list (pystr * Value) -> PyResult (list (pystr * Value)) :=
  fix go (items acc : list (pystr * Value)) : PyResult (list (pystr * Value)) :=
    match items with
    | [] => Ok acc
    | (k, v) :: rest => rbind (f v) (fun v' => go rest (dict_setitem k v' acc))
    end.

(* ------------------------------------------------------------------------- *)
(** ** The value normalizer and the row materializer *)

(** [_to_serializable]: the [isinstance] tests of the source, in its order.
    [int(value)], [float(value)] and [bool(value)] unwrap the numpy scalar. *)
Fixpoint _to_serializable (value : Value) : PyResult Value :=
  match value with
  | NpInteger z => Ok (PyInt z)
  | NpTimedelta64 it => rbind (int_of_timedelta it) (fun z => Ok (PyInt z))
  | NpFloating f => Ok (PyFloat f)
  | NpNdarray a => Ok (tolist a)
  | NpBool b => Ok (PyBool b)
  | PyBytes bs => rbind (utf8_decode replace bs) (fun s => Ok (PyStr s))
  | PaArray elems => to_pylist elems
  | PaChunkedArray chunks => chunked_to_pylist chunks
  | PyList l => rbind (mapM _to_serializable l) (fun l' => Ok (PyList l'))
  | PyDict items =>
    rbind (dict_comprehension _to_serializable items [])
          (fun items' => Ok (PyDict items'))
  | _ => Ok value
  end.

(** The shapes [_rows_to_dicts] tells apart with [hasattr] / [isinstance]. *)
Inductive TableResult : Type :=
| HasToPandas (records : list Value)
    (* [to_pandas().to_dict(orient="records")] of the object *)
| HasToPydict (pydict : list (pystr * list Value))
| IsList (rows : list Value)
| IsIterable (rows : list Value).

(** [lst[i]], raising [IndexError]. *)
Definition list_getitem {A} (l : list A) (i : nat) : PyResult A :=
  match nth_error l i with
  | Some a => Ok a
  | None => Err (Exception (u "list index out of range"))
  end.

(** [{k: pydict[k][i] for k in keys}]. *)
Fixpoint row_of_columns (pydict : list (pystr * list Value)) (i : nat)
    (keys : list pystr) (acc : list (pystr * Value))
    : PyResult (list (pystr * Value)) :=
  match keys with
  | [] => Ok acc
  | k :: keys' =>
    rbind (dict_getitem k pydict) (fun col =>
    rbind (list_getitem col i) (fun v =>
    row_of_columns pydict i keys' (dict_setitem k v acc)))
  end.

Definition _rows_to_dicts (table_result : TableResult) : PyResult (list Value) :=
  rbind
    match table_result with
    | HasToPandas records => Ok records
    | HasToPydict pydict =>
      let keys := map fst pydict in
      let count := match pydict with [] => 0%nat | (_, col) :: _ => length col end in
      mapM (fun i => rbind (row_of_columns pydict i keys [])
                           (fun r => Ok (PyDict r)))
           (seq 0 count)
    | IsList rows => Ok rows
    | IsIterable rows => Ok rows
    end
    (fun rows => mapM _to_serializable rows).

(* ------------------------------------------------------------------------- *)
(** ** The storage engine *)

(** A document of a request body: [dict[str, Any]]. *)
Definition Document := list (pystr * Value).

(** A query under construction.  [table.search(...)] starts one, [.metric],
    [.where] and [.limit] each set one field, and [.to_arrow()] hands the whole
    to the engine.  None of these calls sits under a [try] in the source, so an
    engine that refuses a setting may as well refuse it on execution. *)
Record Query : Type := {
  q_vector : option (list float);
  q_vector_column_name : option pystr;
  q_metric : option pystr;
  q_where : option pystr;
  q_limit : option Z
}.

Definition search (vector : option (list float)) (vector_column_name : option pystr)
    : Query :=
  {| q_vector := vector; q_vector_column_name := vector_column_name;
     q_metric := None; q_where := None; q_limit := None |}.

Definition metric (m : pystr) (q : Query) : Query :=
  {| q_vector := q_vector q; q_vector_column_name := q_vector_column_name q;
     q_metric := Some m; q_where := q_where q; q_limit := q_limit q |}.

Definition where_ (f : pystr) (q : Query) : Query :=
  {| q_vector := q_vector q; q_vector_column_name := q_vector_column_name q;
     q_metric := q_metric q; q_where := Some f; q_limit := q_limit q |}.

Definition limit (n : Z) (q : Query) : Query :=
  {| q_vector := q_vector q; q_vector_column_name := q_vector_column_name q;
     q_metric := q_metric q; q_where := q_where q; q_limit := Some n |}.

(** The [lancedb] connection as the server uses it.  [Conn] is the state of
    the storage root, [Table] a table handle.  Every call may raise; the calls
    that write return the new state, also when they raise. *)
Record Engine : Type := {
  Conn : Type;
  Table : Type;
  db_table_names : Conn -> PyResult (list pystr);
  db_open_table : pystr -> Conn -> PyResult Table;
  db_create_table : pystr -> list Document -> Conn -> PyResult Table * Conn;
  db_drop_table : pystr -> Conn -> PyResult unit * Conn;
  table_count_rows : Table -> Conn -> PyResult Z;
  table_to_pandas : Table -> Conn -> PyResult (list Value);
  table_add : Table -> list Document -> Conn -> PyResult unit * Conn;
  table_delete : Table -> pystr -> Conn -> PyResult unit * Conn;
  query_to_arrow : Table -> Query -> Conn -> PyResult TableResult
}.

(** One entry of the log of calls made to the engine. *)
Inductive Call (T : Type) : Type :=
| Ctable_names
| Copen_table (name : pystr)
| Ccreate_table (name : pystr) (data : list Document)
| Cdrop_table (name : pystr)
| Ccount_rows (t : T)
| Cto_pandas (t : T)
| Cadd (t : T) (data : list Document)
| Cdelete (t : T) (filter : pystr)
| Cto_arrow (t : T) (q : Query).
Arguments Ctable_names {T}.
Arguments Copen_table {T} name.
Arguments Ccreate_table {T} name data.
Arguments Cdrop_table {T} name.

(** Does the call start an engine search or scan? *)
Definition is_query {T} (c : Call T) : bool :=
  match c with Cto_arrow _ _ => true | _ => false end.

(** Does the call hand a batch of documents to the engine? *)
Definition is_write_batch {T} (c : Call T) : bool :=
  match c with Ccreate_table _ _ | Cadd _ _ => true | _ => false end.

(* ------------------------------------------------------------------------- *)
(** ** Request models *)

(** Each model is the class of the source: a required field must be given, a
    field with a default takes it when the body leaves the field out.
    [validate] is [None] when the body is refused before the handler runs. *)

Definition with_default {A} (d : A) (given : option A) : A :=
  match given with Some a => a | None => d end.

Module TableCreateRequest.
Record t : Type := { data : list Document }.
Definition validate (data : option (list Document)) : option t :=
  option_map (fun d => {| data := d |}) data.
End TableCreateRequest.

Module AddDocumentsRequest.
Record t : Type := { data : list Document }.
Definition validate (data : option (list Document)) : option t :=
  option_map (fun d => {| data := d |}) data.
End AddDocumentsRequest.

Module DeleteRequest.
Record t : Type := { filter : pystr }.
Definition validate (filter : option pystr) : option t :=
  option_map (fun f => {| filter := f |}) filter.
End DeleteRequest.

Module SearchRequest.
Record t : Type := {
  vector : list float;
  limit : Z;
  distance_type : pystr;
  filter : option pystr
}.
Definition validate (vector : option (list float)) (limit : option Z)
    (distance_type : option pystr) (filter : option pystr) : option t :=
  option_map (fun v =>
    {| vector := v;
       limit := with_default 10 limit;
       distance_type := with_default (u "cosine") distance_type;
       filter := filter |}) vector.
End SearchRequest.

Module QueryRequest.
Record t : Type := {
  filter : option pystr;
  limit : Z
}.
Definition validate (filter : option pystr) (limit : option Z) : t :=
  {| filter := filter; limit := with_default 100 limit |}.
End QueryRequest.

(** Truth value of a [str] and of an [Optional[str]]. *)
Definition str_truthy (s : pystr) : bool :=
  match s with [] => false | _ :: _ => true end.

Definition opt_str_truthy (s : option pystr) : option pystr :=
  match s with
  | Some (c :: s') => Some (c :: s')
  | _ => None
  end.

(* ------------------------------------------------------------------------- *)
(** ** The handlers *)

Section Server.

(** The connection made at startup and kept in the global [db]. *)
Variable E : Engine.

Definition Log : Type := list (Call (Table E)).

(** A handler runs against the engine state; it ends with a value or an
    exception, leaves a new engine state, and logs the engine calls it
    made, in order. *)
Definition M (A : Type) : Type := Conn E -> PyResult A * Conn E * Log.

Definition ret {A} (a : A) : M A := fun db => (Ok a, db, []).

Definition raise {A} (e : PyExn) : M A := fun db => (Err e, db, []).

Definition bind {A B} (m : M A) (k : A -> M B) : M B :=
  fun db =>
    match m db with
    | (Ok a, db', log) =>
      let '(r, db'', log') := k a db' in (r, db'', log ++ log')
    | (Err e, db', log) => (Err e, db', log)
    end.

(** [try: m except Exception as e: h e]. *)
Definition try_except {A} (m : M A) (h : PyExn -> M A) : M A :=
  fun db =>
    match m db with
    | (Ok a, db', log) => (Ok a, db', log)
    | (Err e, db', log) =>
      let '(r, db'', log') := h e db' in (r, db'', log ++ log')
    end.

Definition lift {A} (r : PyResult A) : M A := fun db => (r, db, []).

(** An engine call that reads, and one that writes. *)
Definition engine_read {A} (c : Call (Table E)) (f : Conn E -> PyResult A) : M A :=
  fun db => (f db, db, [c]).

Definition engine_write {A} (c : Call (Table E))
    (f : Conn E -> PyResult A * Conn E) : M A :=
  fun db => let '(r, db') := f db in (r, db', [c]).

Notation "x <- m ;; k" := (bind m (fun x => k))
  (at level 61, m at next level, right associativity).

Definition _get_table (name : pystr) : M (Table E) :=
  try_except
    (engine_read (Copen_table name) (db_open_table E name))
    (fun _ => raise (HTTPException 404 (u "Table '" ++ name ++ u "' not found"))).

(** [GET /] *)
Definition health : M Value :=
  ret (PyDict [(u "database", PyStr (u "LanceDB")); (u "status", PyStr (u "running"))]).

(** [GET /tables] *)
Definition list_tables : M Value :=
  tables <- engine_read Ctable_names (db_table_names E) ;;
  ret (PyDict [(u "tables", PyList (map PyStr tables))]).

(** [POST /tables/{name}] *)
Definition create_table (name : pystr) (body : TableCreateRequest.t) : M Value :=
  let data := TableCreateRequest.data body in
  match data with
  | [] => raise (HTTPException 400 (u "Data array must not be empty"))
  | _ :: _ =>
    try_except
      (table <- engine_write (Ccreate_table name data) (db_create_table E name data) ;;
       ret (PyDict [(u "table", PyStr name);
                    (u "rows", PyInt (Z.of_nat (length data)))]))
      (fun e =>
         if str_in (u "already exists") (lower (str_of_exn e))
         then raise (HTTPException 409 (u "Table '" ++ name ++ u "' already exists"))
         else raise (HTTPException 500 (str_of_exn e)))
  end.

(** [DELETE /tables/{name}] *)
Definition drop_table (name : pystr) : M Value :=
  try_except
    (_ <- engine_write (Cdrop_table name) (db_drop_table E name) ;;
     ret (PyDict [(u "deleted", PyStr name)]))
    (fun _ => raise (HTTPException 404 (u "Table '" ++ name ++ u "' not found"))).

(** The row count as three handlers take it:
    [try: count = table.count_rows()
     except Exception: count = len(table.to_pandas())]. *)
Definition count_with_fallback (table : Table E) : M Z :=
  try_except
    (engine_read (Ccount_rows table) (table_count_rows E table))
    (fun _ =>
       df <- engine_read (Cto_pandas table) (table_to_pandas E table) ;;
       ret (Z.of_nat (length df))).

(** [GET /tables/{name}/count] *)
Definition count_rows (name : pystr) : M Value :=
  table <- _get_table name ;;
  count <- count_with_fallback table ;;
  ret (PyDict [(u "count", PyInt count)]).

(** [POST /tables/{name}/add] *)
Definition add_documents (name : pystr) (body : AddDocumentsRequest.t) : M Value :=
  table <- _get_table name ;;
  let data := AddDocumentsRequest.data body in
  match data with
  | [] => raise (HTTPException 400 (u "Data array must not be empty"))
  | _ :: _ =>
    _ <- engine_write (Cadd table data) (table_add E table data) ;;
    ret (PyDict [(u "added", PyInt (Z.of_nat (length data)))])
  end.

(** [POST /tables/{name}/delete] *)
Definition delete_documents (name : pystr) (body : DeleteRequest.t) : M Value :=
  table <- _get_table name ;;
  let filter := DeleteRequest.filter body in
  if str_truthy filter then
    _ <- engine_write (Cdelete table filter) (table_delete E table filter) ;;
    ret (PyDict [(u "deleted", PyBool true)])
  else raise (HTTPException 400 (u "Filter expression is required")).

(** [POST /tables/{name}/search] *)
Definition vector_search (name : pystr) (body : SearchRequest.t) : M Value :=
  table <- _get_table name ;;
  count <- count_with_fallback table ;;
  if count =? 0 then ret (PyDict [(u "results", PyList [])])
  else
    let query := search (Some (SearchRequest.vector body)) (Some (u "vector")) in
    let query :=
      if str_truthy (SearchRequest.distance_type body)
      then metric (SearchRequest.distance_type body) query else query in
    let query :=
      match opt_str_truthy (SearchRequest.filter body) with
      | Some f => where_ f query
      | None => query
      end in
    let query := limit (SearchRequest.limit body) query in
    results <- engine_read (Cto_arrow table query) (query_to_arrow E table query) ;;
    rows <- lift (_rows_to_dicts results) ;;
    ret (PyDict [(u "results", PyList rows)]).

(** [POST /tables/{name}/query] *)
Definition query_table (name : pystr) (body : QueryRequest.t) : M Value :=
  table <- _get_table name ;;
  count <- count_with_fallback table ;;
  if count =? 0 then ret (PyDict [(u "results", PyList [])])
  else
    let query :=
      match opt_str_truthy (QueryRequest.filter body) with
      | Some f => limit (QueryRequest.limit body) (where_ f (search None None))
      | None => limit (QueryRequest.limit body) (search None None)
      end in
    arrow_table <- engine_read (Cto_arrow table query) (query_to_arrow E table query) ;;
    rows <- lift (_rows_to_dicts arrow_table) ;;
    ret (PyDict [(u "results", PyList rows)]).

(** What a run of a handler leaves: its outcome, the engine state after it,
    and the calls it made. *)
Definition outcome {A} (x : PyResult A * Conn E * Log) : PyResult A := fst (fst x).
Definition db_after {A} (x : PyResult A * Conn E * Log) : Conn E := snd (fst x).
Definition calls {A} (x : PyResult A * Conn E * Log) : Log := snd x.

End Server.

(** The status line of the response: a returned body is 200, an
    [HTTPException] carries its own status, and any other exception that
    leaves the handler is answered 500 by the framework. *)
Definition http_status {A} (r : PyResult A) : Z :=
  match r with
  | Ok _ => 200
  | Err (HTTPException status_code _) => status_code
  | Err (Exception _) => 500
  end.

(* ------------------------------------------------------------------------- *)
(** ** An in-memory engine *)

(** A small implementation of the engine interface, used to run the handlers
    on concrete data.  Tables are kept by name, in creation order.  A filter
    names a boolean field and matches the rows where it is [True].  The
    storage root may be read-only, and the fast row count may be missing, as
    the source expects of some engines. *)
Module MemDB.

Record conn : Type := {
  tables : list (pystr * list Document);
  read_only : bool;
  fast_count : bool
}.

Fixpoint lookup (name : pystr) (ts : list (pystr * list Document))
    : option (list Document) :=
  match ts with
  | [] => None
  | (n, rows) :: ts' => if pystr_eqb name n then Some rows else lookup name ts'
  end.

Fixpoint update (name : pystr) (f : list Document -> list Document)
    (ts : list (pystr * list Document)) : list (pystr * list Document) :=
  match ts with
  | [] => []
  | (n, rows) :: ts' =>
    if pystr_eqb name n then (n, f rows) :: ts' else (n, rows) :: update name f ts'
  end.

Definition remove (name : pystr) (ts : list (pystr * list Document))
    : list (pystr * list Document) :=
  filter (fun nr => negb (pystr_eqb name (fst nr))) ts.

Definition with_tables (c : conn) (ts : list (pystr * list Document)) : conn :=
  {| tables := ts; read_only := read_only c; fast_count := fast_count c |}.

Definition not_found {A} (name : pystr) : PyResult A :=
  Err (Exception (u "Table '" ++ name ++ u "' was not found")).

Definition permission_denied {A} : PyResult A :=
  Err (Exception (u "Permission denied (os error 13)")).

Fixpoint matches (filter : pystr) (row : Document) : bool :=
  match row with
  | [] => false
  | (k, v) :: row' =>
    if pystr_eqb filter k
    then match v with PyBool b => b | _ => false end
    else matches filter row'
  end.

Definition open_table (name : pystr) (c : conn) : PyResult pystr :=
  match lookup name (tables c) with
  | Some _ => Ok name
  | None => not_found name
  end.

Definition create_table (name : pystr) (data : list Document) (c : conn)
    : PyResult pystr * conn :=
  match lookup name (tables c) with
  | Some _ => (Err (Exception (u "Table '" ++ name ++ u "' already exists")), c)
  | None =>
    if read_only c then (permission_denied, c)
    else (Ok name, with_tables c (tables c ++ [(name, data)]))
  end.

Definition drop_table (name : pystr) (c : conn) : PyResult unit * conn :=
  if read_only c then (permission_denied, c)
  else
    match lookup name (tables c) with
    | Some _ => (Ok tt, with_tables c (remove name (tables c)))
    | None => (not_found name, c)
    end.

Definition count_rows (t : pystr) (c : conn) : PyResult Z :=
  if fast_count c then
    match lookup t (tables c) with
    | Some rows => Ok (Z.of_nat (length rows))
    | None => not_found t
    end
  else Err (Exception (u "count_rows is not supported")).

Definition to_pandas (t : pystr) (c : conn) : PyResult (list Value) :=
  match lookup t (tables c) with
  | Some rows => Ok (map PyDict rows)
  | None => not_found t
  end.

Definition add (t : pystr) (data : list Document) (c : conn) : PyResult unit * conn :=
  match lookup t (tables c) with
  | Some _ =>
    if read_only c then (permission_denied, c)
    else (Ok tt, with_tables c (update t (fun rows => rows ++ data) (tables c)))
  | None => (not_found t, c)
  end.

Definition delete (t : pystr) (filter_ : pystr) (c : conn) : PyResult unit * conn :=
  match lookup t (tables c) with
  | Some _ =>
    if read_only c then (permission_denied, c)
    else (Ok tt,
          with_tables c
            (update t (filter (fun row => negb (matches filter_ row))) (tables c)))
  | None => (not_found t, c)
  end.

Definition to_arrow (t : pystr) (q : Query) (c : conn) : PyResult TableResult :=
  match lookup t (tables c) with
  | Some rows =>
    let kept :=
      match q_where q with
      | Some f => filter (matches f) rows
      | None => rows
      end in
    let kept :=
      match q_limit q with
      | Some n => firstn (Z.to_nat n) kept
      | None => kept
      end in
    Ok (HasToPandas (map PyDict kept))
  | None => not_found t
  end.

Definition engine : Engine :=
  {| Conn := conn;
     Table := pystr;
     db_table_names := fun c => Ok (map fst (tables c));
     db_open_table := open_table;
     db_create_table := create_table;
     db_drop_table := drop_table;
     table_count_rows := count_rows;
     table_to_pandas := to_pandas;
     table_add := add;
     table_delete := delete;
     query_to_arrow := to_arrow |}.

(** Sample data: the two documents of the end-to-end example, one table
    holding them and one table left without rows. *)
Definition hello : Document :=
  [(u "text", PyStr (u "hello"));
   (u "vector", PyList [PyFloat 0.5; PyFloat 0.25; PyFloat 0.125]);
   (u "archived", PyBool false)].

Definition world : Document :=
  [(u "text", PyStr (u "world"));
   (u "vector", PyList [PyFloat 0.25; PyFloat 0.5; PyFloat 0]);
   (u "archived", PyBool true)].

Definition sample : conn :=
  {| tables := [(u "docs", [hello; world]); (u "empty", [])];
     read_only := false;
     fast_count := true |}.

(** The same storage root mounted read-only. *)
Definition sample_read_only : conn :=
  {| tables := tables sample; read_only := true; fast_count := true |}.

(** The same tables on an engine without the fast count. *)
Definition sample_slow_count : conn :=
  {| tables := tables sample; read_only := false; fast_count := false |}.

(** Well-formed request bodies: a vector with a filter, and a filter. *)
Definition sample_search : SearchRequest.t :=
  {| SearchRequest.vector := [0.5; 0.25; 0.125]%float;
     SearchRequest.limit := 1;
     SearchRequest.distance_type := u "cosine";
     SearchRequest.filter := Some (u "archived") |}.

Definition sample_query : QueryRequest.t :=
  {| QueryRequest.filter := Some (u "archived"); QueryRequest.limit := 100 |}.

End MemDB.

(* ------------------------------------------------------------------------- *)
(** ** Notions used in the statements *)

(** The arms of [_to_serializable]: does some [isinstance] test accept the
    value?  When none does, the final [return value] is reached. *)
Definition known_shape (v : Value) : bool :=
  match v with
  | NpInteger _ | NpTimedelta64 _ | NpFloating _ | NpNdarray _ | NpBool _
  | PyBytes _ | PaArray _ | PaChunkedArray _ | PyList _ | PyDict _ => true
  | _ => false
  end.

Fixpoint distinct (keys : list pystr) : bool :=
  match keys with
  | [] => true
  | k :: keys' => negb (existsb (pystr_eqb k) keys') && distinct keys'
  end.

(** A canonical value: a plain number, string or boolean, a list of canonical
    values, or a dict of canonical values (a dict holds each key once). *)
Fixpoint canonical (v : Value) : bool :=
  match v with
  | PyBool _ | PyInt _ | PyFloat _ | PyStr _ => true
  | PyList l => forallb canonical l
  | PyDict items =>
    distinct (map fst items) && forallb (fun kv => canonical (snd kv)) items
  | _ => false
  end.

(** Arrays of numbers. *)
Definition numeric_item (x : np_item Value) : bool :=
  match x with
  | ItInteger _ | ItFloating _ => true
  | _ => false
  end.

Fixpoint numeric (a : ndarray Value) : bool :=
  match a with
  | NdItem x => numeric_item x
  | NdAxis xs => forallb numeric xs
  end.

Definition is_number (v : Value) : bool :=
  match v with
  | PyInt _ | PyFloat _ => true
  | _ => false
  end.

(** [mirrors a v]: [v] is the array [a] written as plain numbers in nested
    lists, axis by axis, cell by cell, in order. *)
Inductive mirrors : ndarray Value -> Value -> Prop :=
| mirrors_integer z : mirrors (NdItem (ItInteger z)) (PyInt z)
| mirrors_floating f : mirrors (NdItem (ItFloating f)) (PyFloat f)
| mirrors_axis xs vs : Forall2 mirrors xs vs -> mirrors (NdAxis xs) (PyList vs).

(** The engine finds no row in the table: the fast count answers 0, or it
    raises and the materialized frame has length 0. *)
Definition zero_rows (E : Engine) (t : Table E) (db : Conn E) : Prop :=
  table_count_rows E t db = Ok 0
  \/ exists e, table_count_rows E t db = Err e
               /\ table_to_pandas E t db = Ok [].

(** Induction over values, through lists and dicts. *)
Section Value_induction.
Variable P : Value -> Prop.
Hypothesis P_list : forall l, Forall P l -> P (PyList l).
Hypothesis P_dict : forall items, Forall (fun kv => P (snd kv)) items -> P (PyDict items).
Hypothesis P_leaf :
  forall v, match v with PyList _ | PyDict _ => True | _ => P v end.

Fixpoint Value_nested_ind (v : Value) : P v :=
  match v as v0 return P v0 with
  | PyList l =>
    P_list
      ((fix all (l : list Value) : Forall P l :=
          match l with
          | [] => Forall_nil _
          | x :: l' => Forall_cons x (Value_nested_ind x) (all l')
          end) l)
  | PyDict items =>
    P_dict
      ((fix all (l : list (pystr * Value)) : Forall (fun kv => P (snd kv)) l :=
          match l with
          | [] => Forall_nil _
          | (k, x) :: l' =>
            Forall_cons (P := fun kv => P (snd kv)) (k, x) (Value_nested_ind x) (all l')
          end) items)
  | PyNone => P_leaf PyNone
  | PyBool b => P_leaf (PyBool b)
  | PyInt z => P_leaf (PyInt z)
  | PyFloat f => P_leaf (PyFloat f)
  | PyStr s => P_leaf (PyStr s)
  | PyBytes bs => P_leaf (PyBytes bs)
  | NpInteger z => P_leaf (NpInteger z)
  | NpTimedelta64 it => P_leaf (NpTimedelta64 it)
  | NpFloating f => P_leaf (NpFloating f)
  | NpBool b => P_leaf (NpBool b)
  | NpNdarray a => P_leaf (NpNdarray a)
  | PaArray elems => P_leaf (PaArray elems)
  | PaChunkedArray chunks => P_leaf (PaChunkedArray chunks)
  | PyObject r => P_leaf (PyObject r)
  end.
End Value_induction.

(** Induction over arrays, through the axes. *)
Section ndarray_induction.
Variable P : ndarray Value -> Prop.
Hypothesis P_item : forall x, P (NdItem x).
Hypothesis P_axis : forall xs, Forall P xs -> P (NdAxis xs).

Fixpoint ndarray_nested_ind (a : ndarray Value) : P a :=
  match a with
  | NdItem x => P_item x
  | NdAxis xs =>
    P_axis
      ((fix all (l : list (ndarray Value)) : Forall P l :=
          match l with
          | [] => Forall_nil _
          | x :: l' => Forall_cons x (ndarray_nested_ind x) (all l')
          end) xs)
  end.
End ndarray_induction.

(* ------------------------------------------------------------------------- *)
(** ** Further notions used in the statements *)

(** Does the call change what the engine stores? *)
Definition is_mutation {T} (c : Call T) : bool :=
  match c with
  | Ccreate_table _ _ | Cdrop_table _ | Cadd _ _ | Cdelete _ _ => true
  | _ => false
  end.

(** A tree of plain Python values: [None], booleans, numbers and text, in
    lists and dicts. *)
Fixpoint plain (v : Value) : bool :=
  match v with
  | PyNone | PyBool _ | PyInt _ | PyFloat _ | PyStr _ => true
  | PyList l => forallb plain l
  | PyDict items =>
    distinct (map fst items) && forallb (fun kv => plain (snd kv)) items
  | _ => false
  end.

(** Arrays of a primitive dtype: every cell is a number, a boolean or
    text. *)
Definition primitive_item (x : np_item Value) : bool :=
  match x with
  | ItInteger _ | ItFloating _ | ItBool _ | ItStr _ => true
  | ItBytes _ | ItObject _ => false
  end.

Fixpoint primitive (a : ndarray Value) : bool :=
  match a with
  | NdItem x => primitive_item x
  | NdAxis xs => forallb primitive xs
  end.

(** An element of an arrow array that converts, and to a plain value. *)
Definition plain_element (r : PyResult Value) : bool :=
  match r with
  | Ok v => plain v
  | Err _ => false
  end.

(** The values a row of a result frame is made of: plain values, bytes, numpy
    numbers and booleans (a [timedelta64] only when it counts ticks), arrays
    of a primitive dtype, arrow arrays of plain values, and lists and dicts
    of such values. *)
Fixpoint row_value (v : Value) : bool :=
  match v with
  | PyNone | PyBool _ | PyInt _ | PyFloat _ | PyStr _ | PyBytes _
  | NpInteger _ | NpTimedelta64 (TdInt _) | NpFloating _ | NpBool _ => true
  | NpTimedelta64 _ => false
  | NpNdarray a => primitive a
  | PaArray elems => forallb plain_element elems
  | PaChunkedArray chunks => forallb (forallb plain_element) chunks
  | PyList l => forallb row_value l
  | PyDict items => forallb (fun kv => row_value (snd kv)) items
  | PyObject _ => false
  end.

(** The inputs on which no conversion of the normalizer raises: every
    [timedelta64] counts ticks and every element of an arrow array has a
    Python value. *)
Definition converts (r : PyResult Value) : bool :=
  match r with
  | Ok _ => true
  | Err _ => false
  end.

Fixpoint convertible (v : Value) : bool :=
  match v with
  | NpTimedelta64 (TdInt _) => true
  | NpTimedelta64 _ => false
  | PaArray elems => forallb converts elems
  | PaChunkedArray chunks => forallb (forallb converts) chunks
  | PyList l => forallb convertible l
  | PyDict items => forallb (fun kv => convertible (snd kv)) items
  | _ => true
  end.












(** Letters compared without case, as [lower] sees them. *)
Definition same_ignoring_case (a b : pystr) : Prop := lower a = lower b.

(** A columnar result, read by rows: the number of rows [_rows_to_dicts]
    takes it to have (the length of its first column), and its [i]-th row,
    one item per column in column order. *)
Definition first_column_length (pydict : list (pystr * list Value)) : nat :=
  match pydict with
  | [] => 0%nat
  | (_, col) :: _ => length col
  end.

Definition transposed_row (pydict : list (pystr * list Value)) (i : nat)
    : list (pystr * Value) :=
  map (fun kc => (fst kc, nth i (snd kc) PyNone)) pydict.

(** An in-memory engine that checks the filter against the schema: a query
    whose filter names a field that no row of the table has is refused. *)
Module StrictDB.

Definition has_field (f : pystr) (row : Document) : bool :=
  existsb (fun kv => pystr_eqb f (fst kv)) row.

Definition to_arrow (t : pystr) (q : Query) (c : MemDB.conn) : PyResult TableResult :=
  match q_where q, MemDB.lookup t (MemDB.tables c) with
  | Some f, Some rows =>
    if existsb (has_field f) rows then MemDB.to_arrow t q c
    else Err (Exception (u "No field named " ++ f))
  | _, _ => MemDB.to_arrow t q c
  end.

Definition engine : Engine :=
  {| Conn := MemDB.conn;
     Table := pystr;
     db_table_names := fun c => Ok (map fst (MemDB.tables c));
     db_open_table := MemDB.open_table;
     db_create_table := MemDB.create_table;
     db_drop_table := MemDB.drop_table;
     table_count_rows := MemDB.count_rows;
     table_to_pandas := MemDB.to_pandas;
     table_add := MemDB.add;
     table_delete := MemDB.delete;
     query_to_arrow := to_arrow |}.

End StrictDB.

(** An in-memory engine that infers the schema of a new table from the
    payload before it looks at the name: a document without fields is
    refused. *)
Module SchemaDB.

Definition no_fields (d : Document) : bool :=
  match d with
  | [] => true
  | _ :: _ => false
  end.

Definition create_table (name : pystr) (data : list Document) (c : MemDB.conn)
    : PyResult pystr * MemDB.conn :=
  if existsb no_fields data
  then (Err (Exception (u "Cannot infer schema: a document has no fields")), c)
  else MemDB.create_table name data c.

Definition engine : Engine :=
  {| Conn := MemDB.conn;
     Table := pystr;
     db_table_names := fun c => Ok (map fst (MemDB.tables c));
     db_open_table := MemDB.open_table;
     db_create_table := create_table;
     db_drop_table := MemDB.drop_table;
     table_count_rows := MemDB.count_rows;
     table_to_pandas := MemDB.to_pandas;
     table_add := MemDB.add;
     table_delete := MemDB.delete;
     query_to_arrow := MemDB.to_arrow |}.

End SchemaDB.

(** A reading of what an engine stores: the rows a table holds in a state,
    and whether a row satisfies a filter.  Against a reading one can say what
    the engine's [delete] and [count_rows] are expected to do. *)
Record TableReading (E : Engine) : Type := {
  rows_of : Table E -> Conn E -> list Document;
  satisfies : pystr -> Document -> bool
}.

(** The call [table.delete(f)] returns and removes the rows that satisfy
    [f], and no other. *)
Definition deletes_matching (E : Engine) (R : TableReading E)
    (t : Table E) (f : pystr) (db db' : Conn E) : Prop :=
  table_delete E t f db = (Ok tt, db')
  /\ rows_of R t db' = filter (fun row => negb (satisfies R f row)) (rows_of R t db).

(** [table.count_rows()] answers the number of rows. *)
Definition counts_rows (E : Engine) (R : TableReading E)
    (t : Table E) (db : Conn E) : Prop :=
  table_count_rows E t db = Ok (Z.of_nat (length (rows_of R t db))).

(** No row of the table satisfies the filter. *)
Definition matches_no_row (E : Engine) (R : TableReading E)
    (t : Table E) (f : pystr) (db : Conn E) : Prop :=
  forallb (fun row => negb (satisfies R f row)) (rows_of R t db) = true.

(** The reading of the in-memory engine, and a state in which the table
    [docs] holds one document, not archived. *)
Module MemReading.

Definition rows (t : pystr) (c : MemDB.conn) : list Document :=
  match MemDB.lookup t (MemDB.tables c) with
  | Some rows => rows
  | None => []
  end.

Definition reading : TableReading MemDB.engine :=
  @Build_TableReading MemDB.engine rows MemDB.matches.

Definition one_document : MemDB.conn :=
  {| MemDB.tables := [(u "docs", [MemDB.hello])];
     MemDB.read_only := false;
     MemDB.fast_count := true |}.

End MemReading.

(* ------------------------------------------------------------------------- *)
(** * Properties of the decoder *)

(** Runs the recursive calls of the decoder met in the goal, each on a
    shorter buffer, and closes the goal by computation. *)
Ltac decode_rest IH :=
  repeat match goal with
  | |- context [utf8_decode replace ?r] =>
    let s := fresh "s" in
    let Hs := fresh "Hs" in
    destruct (IH r) as [s Hs]; [simpl in *; lia | rewrite Hs]
  end.

Ltac decode_cases :=
  repeat match goal with
  | |- context [if ?c then _ else _] => destruct c
  | |- context [match ?l with [] => _ | _ :: _ => _ end] => destruct l
  end.

Lemma utf8_decode_replace_bounded (n : nat) :
  forall bs, (length bs <= n)%nat -> exists s, utf8_decode replace bs = Ok s.
Proof.
  induction n as [|n IH]; intros bs Hle.
  - destruct bs; [exists []; reflexivity | simpl in Hle; lia].
  - destruct bs as [|b1 r1]; [exists []; reflexivity|].
    simpl in Hle. simpl utf8_decode.
    decode_cases; decode_rest IH; eexists; reflexivity.
Qed.

Lemma utf8_decode_replace_total (bs : list byte) :
  exists s, utf8_decode replace bs = Ok s.
Proof. apply (utf8_decode_replace_bounded (n := length bs)); lia. Qed.

(** Splits a successful strict decoding of a sequence followed by the rest. *)
Lemma emit_ok c r s :
  emit c r = Ok s -> exists s', r = Ok s' /\ s = c :: s'.
Proof.
  destruct r as [s'|e]; simpl; intros H; [|discriminate].
  injection H as <-. exists s'. split; reflexivity.
Qed.


(** On a buffer that decodes strictly, [replace] gives the same text. *)
Lemma utf8_decode_replace_agrees_bounded (n : nat) :
  forall bs s, (length bs <= n)%nat ->
    utf8_decode strict bs = Ok s -> utf8_decode replace bs = Ok s.
Proof.
  induction n as [|n IH]; intros bs s Hle.
  - destruct bs; [intros H; exact H | simpl in Hle; lia].
  - destruct bs as [|b1 r1]; [intros H; exact H|].
    simpl in Hle. simpl utf8_decode.
    decode_cases; intros H; try discriminate H;
      apply emit_ok in H; destruct H as (s' & H & ->);
      (apply IH in H; [rewrite H; reflexivity | simpl in *; lia]).
Qed.


(* ------------------------------------------------------------------------- *)
(** * Properties of the value normalizer *)

Lemma pystr_eqb_eq (a b : pystr) : pystr_eqb a b = true <-> a = b.
Proof.
  unfold pystr_eqb. destruct (list_eq_dec N.eq_dec a b); split; intros H;
    congruence.
Qed.

Lemma pystr_eqb_refl (a : pystr) : pystr_eqb a a = true.
Proof. apply pystr_eqb_eq. reflexivity. Qed.

Lemma pystr_eqb_neq (a b : pystr) : a <> b -> pystr_eqb a b = false.
Proof.
  intros Hne. destruct (pystr_eqb a b) eqn:Heq; [|reflexivity].
  apply pystr_eqb_eq in Heq. contradiction.
Qed.

Lemma distinct_NoDup (keys : list pystr) : distinct keys = true -> NoDup keys.
Proof.
  induction keys as [|k keys IH]; simpl; intros H; [constructor|].
  apply andb_true_iff in H. destruct H as [Hk Hrest].
  constructor; [|apply IH; exact Hrest].
  intros Hin. apply negb_true_iff in Hk.
  assert (Hex : existsb (pystr_eqb k) keys = true).
  { apply existsb_exists. exists k. split; [exact Hin | apply pystr_eqb_refl]. }
  congruence.
Qed.

(** Setting a key the dict does not hold appends the item. *)
Lemma dict_setitem_fresh k v (d : list (pystr * Value)) :
  ~ In k (map fst d) -> dict_setitem k v d = d ++ [(k, v)].
Proof.
  induction d as [|[k' v'] d IH]; simpl; intros Hnot; [reflexivity|].
  rewrite pystr_eqb_neq by (intros ->; apply Hnot; left; reflexivity).
  rewrite IH by (intros Hin; apply Hnot; right; exact Hin).
  reflexivity.
Qed.

(** A comprehension whose function returns every value as it is rebuilds
    the dict, item by item and in order. *)
Lemma dict_comprehension_id (f : Value -> PyResult Value) :
  forall items acc,
    NoDup (map fst (acc ++ items)) ->
    Forall (fun kv => f (snd kv) = Ok (snd kv)) items ->
    dict_comprehension f items acc = Ok (acc ++ items).
Proof.
  induction items as [|[k v] items IH]; intros acc Hnd Hall; simpl.
  - rewrite app_nil_r. reflexivity.
  - inversion Hall as [|? ? Hv Hrest]; subst. simpl in Hv. rewrite Hv. simpl.
    rewrite map_app in Hnd. simpl in Hnd.
    rewrite dict_setitem_fresh.
    + rewrite IH; [rewrite <- app_assoc; reflexivity | | exact Hrest].
      rewrite <- app_assoc, map_app. exact Hnd.
    + apply NoDup_remove_2 in Hnd. intros Hin. apply Hnd.
      apply in_or_app. left. exact Hin.
Qed.

Lemma mapM_id {A} (f : A -> PyResult A) (l : list A) :
  Forall (fun a => f a = Ok a) l -> mapM f l = Ok l.
Proof.
  induction 1 as [|a l Ha _ IH]; simpl; [reflexivity|].
  rewrite Ha. simpl. rewrite IH. reflexivity.
Qed.

Lemma mapM_total {A B} (f : A -> PyResult B) (l : list A) :
  Forall (fun a => exists b, f a = Ok b) l -> exists bs, mapM f l = Ok bs.
Proof.
  induction 1 as [|a l [b Hb] _ [bs IH]]; simpl; [eexists; reflexivity|].
  rewrite Hb. simpl. rewrite IH. eexists. reflexivity.
Qed.

Lemma dict_comprehension_total (f : Value -> PyResult Value) :
  forall items acc,
    Forall (fun kv => exists v', f (snd kv) = Ok v') items ->
    exists items', dict_comprehension f items acc = Ok items'.
Proof.
  induction items as [|[k v] items IH]; intros acc Hall; simpl.
  - eexists. reflexivity.
  - inversion Hall as [|? ? [v' Hv] Hrest]; subst. simpl in Hv. rewrite Hv. simpl.
    apply IH. exact Hrest.
Qed.

Lemma fallback_arm (v : Value) : known_shape v = false -> _to_serializable v = Ok v.
Proof. destruct v; simpl; intros H; try discriminate H; reflexivity. Qed.

Lemma canonical_unchanged (v : Value) : canonical v = true -> _to_serializable v = Ok v.
Proof.
  revert v.
  apply (Value_nested_ind
           (P := fun v => canonical v = true -> _to_serializable v = Ok v));
    [intros l IH | intros items IH | intros v].
  - simpl. intros Hc. rewrite mapM_id; [reflexivity|].
    rewrite forallb_forall in Hc. rewrite Forall_forall in IH |- *.
    intros x Hx. apply IH; [exact Hx | apply Hc; exact Hx].
  - simpl. intros Hc. apply andb_true_iff in Hc. destruct Hc as [Hkeys Hvals].
    rewrite (@dict_comprehension_id _to_serializable items []); [reflexivity | |].
    + apply distinct_NoDup. exact Hkeys.
    + rewrite forallb_forall in Hvals. rewrite Forall_forall in IH |- *.
      intros kv Hkv. apply IH; [exact Hkv | apply Hvals; exact Hkv].
  - destruct v; try exact I; simpl; intros Hc; try discriminate Hc; reflexivity.
Qed.

(** C6.  A canonical value (plain number, string, boolean, list or dict of
    canonical values) is returned as it is, and so is any value that none of
    the [isinstance] tests accepts: it reaches the final [return value]. *)
Theorem to_serializable_idempotent_on_canonical (v : Value) :
  (canonical v = true -> _to_serializable v = Ok v)
  /\ (known_shape v = false -> _to_serializable v = Ok v).
Proof. split; [apply canonical_unchanged | apply fallback_arm]. Qed.

Lemma to_serializable_idempotent_on_canonical_witness :
  _to_serializable
    (PyDict [(u "text", PyStr (u "hello"));
             (u "vector", PyList [PyFloat 0.5; PyFloat 0.25; PyInt 3]);
             (u "seen", PyBool true)])
  = Ok (PyDict [(u "text", PyStr (u "hello"));
                (u "vector", PyList [PyFloat 0.5; PyFloat 0.25; PyInt 3]);
                (u "seen", PyBool true)])
  /\ _to_serializable PyNone = Ok PyNone.
Proof.
  split.
  - apply (proj1 (to_serializable_idempotent_on_canonical _)). reflexivity.
  - apply (proj2 (to_serializable_idempotent_on_canonical PyNone)). reflexivity.
Defined.

Lemma numeric_mirrors (a : ndarray Value) : numeric a = true -> mirrors a (tolist a).
Proof.
  revert a.
  apply (ndarray_nested_ind (P := fun a => numeric a = true -> mirrors a (tolist a)));
    [intros x | intros xs IH].
  - destruct x; simpl; intros H; try discriminate H; constructor.
  - simpl. intros H. constructor.
    rewrite forallb_forall in H.
    induction IH as [|x xs Hx _ IHxs]; simpl; constructor.
    + apply Hx. apply H. left. reflexivity.
    + apply IHxs. intros y Hy. apply H. right. exact Hy.
Qed.

(** C7.  A numeric array is normalized to nested lists of plain numbers that
    mirror it axis by axis; for a vector (one axis) the list has the length of
    the array and its [i]-th element is the number held in the [i]-th cell. *)
Theorem ndarray_same_length_and_order :
  (forall a, numeric a = true ->
     exists v, _to_serializable (NpNdarray a) = Ok v /\ mirrors a v)
  /\ (forall xs : list (np_item Value),
        forallb numeric_item xs = true ->
        exists l,
          _to_serializable (NpNdarray (NdAxis (map (@NdItem Value) xs))) = Ok (PyList l)
          /\ length l = length xs
          /\ forall i x, nth_error xs i = Some x ->
               nth_error l i = Some (item x) /\ is_number (item x) = true).
Proof.
  split.
  - intros a Ha. exists (tolist a). split; [reflexivity | apply numeric_mirrors; exact Ha].
  - intros xs Hnum. exists (map item xs). repeat split.
    + simpl. rewrite map_map. reflexivity.
    + apply length_map.
    + rewrite nth_error_map, H. reflexivity.
    + rewrite forallb_forall in Hnum. apply nth_error_In in H.
      specialize (Hnum x H). destruct x; simpl in *; congruence.
Qed.

Lemma ndarray_same_length_and_order_witness :
  (exists v,
     _to_serializable
       (NpNdarray (NdAxis [NdAxis [NdItem (ItInteger 1); NdItem (ItInteger 2)];
                           NdAxis [NdItem (ItInteger 3); NdItem (ItInteger 4)]])) = Ok v
     /\ mirrors (NdAxis [NdAxis [NdItem (ItInteger 1); NdItem (ItInteger 2)];
                         NdAxis [NdItem (ItInteger 3); NdItem (ItInteger 4)]]) v)
  /\ (exists l,
        _to_serializable
          (NpNdarray (NdAxis (map (@NdItem Value)
                                [ItFloating 0.5; ItFloating 0.25; ItFloating 0.125])))
        = Ok (PyList l)
        /\ length l = 3%nat
        /\ forall i x,
             nth_error [ItFloating 0.5; ItFloating 0.25; ItFloating 0.125] i = Some x ->
             nth_error l i = Some (item x) /\ is_number (item x) = true).
Proof.
  split.
  - apply (proj1 ndarray_same_length_and_order). reflexivity.
  - apply (proj2 ndarray_same_length_and_order
             [ItFloating 0.5; ItFloating 0.25; ItFloating 0.125]).
    reflexivity.
Defined.

(** ** The decoder against the encoding form *)

Section Utf8Arithmetic.

#[local] Ltac Zify.zify_post_hook ::= Z.to_euclidean_division_equations.

Local Open Scope N_scope.

Lemma to_N_lt_256 (b : byte) : Byte.to_N b < 256.
Proof. pose proof (Byte.to_N_bounded b). lia. Qed.
























End Utf8Arithmetic.

Section Utf8Bytes.

Local Open Scope N_scope.














End Utf8Bytes.

(* ------------------------------------------------------------------------- *)
(** * Totality of the normalizer *)

Lemma mapM_converts (elems : list (PyResult Value)) :
  forallb converts elems = true -> exists l, mapM (fun x => x) elems = Ok l.
Proof.
  induction elems as [|r elems IH]; simpl; intros H; [eexists; reflexivity|].
  apply andb_true_iff in H. destruct H as [Hr Hrest].
  destruct r as [v|e]; [|discriminate]. destruct (IH Hrest) as [l Hl].
  simpl. rewrite Hl. eexists. reflexivity.
Qed.

Lemma forallb_concat {A} (p : A -> bool) (ls : list (list A)) :
  forallb (forallb p) ls = true -> forallb p (concat ls) = true.
Proof.
  induction ls as [|l ls IH]; simpl; intros H; [reflexivity|].
  apply andb_true_iff in H. destruct H as [Hl Hls].
  rewrite forallb_app, Hl, IH; [reflexivity | exact Hls].
Qed.

Lemma to_serializable_returns (v : Value) :
  convertible v = true -> exists v', _to_serializable v = Ok v'.
Proof.
  revert v.
  apply (Value_nested_ind
           (P := fun v => convertible v = true -> exists v', _to_serializable v = Ok v'));
    [intros l IH | intros items IH | intros v].
  - simpl. intros Hc. rewrite forallb_forall in Hc. rewrite Forall_forall in IH.
    destruct (@mapM_total _ _ _to_serializable l) as [l' Hl'].
    { apply Forall_forall. intros x Hx. apply IH; [exact Hx | apply Hc; exact Hx]. }
    rewrite Hl'. eexists. reflexivity.
  - simpl. intros Hc. rewrite forallb_forall in Hc. rewrite Forall_forall in IH.
    destruct (@dict_comprehension_total _to_serializable items []) as [d Hd].
    { apply Forall_forall. intros kv Hkv. apply IH; [exact Hkv | apply Hc; exact Hkv]. }
    rewrite Hd. eexists. reflexivity.
  - destruct v; try exact I; simpl; intros Hc; try (eexists; reflexivity).
    + destruct (utf8_decode_replace_total bs) as [s Hs]. rewrite Hs.
      eexists. reflexivity.
    + destruct it; try discriminate Hc. eexists. reflexivity.
    + unfold to_pylist. destruct (mapM_converts elems Hc) as [l Hl]. rewrite Hl.
      eexists. reflexivity.
    + unfold chunked_to_pylist, to_pylist.
      destruct (mapM_converts (concat chunks) (forallb_concat _ _ Hc)) as [l Hl].
      rewrite Hl. eexists. reflexivity.
Qed.




(** The bytes [68 ff 69]: strict decoding raises, the normalizer answers the
    text [h U+FFFD i]. *)
Example to_serializable_invalid_utf8 :
  (exists e, utf8_decode strict [x68; xff; x69] = Err e)
  /\ _to_serializable (PyBytes [x68; xff; x69]) = Ok (PyStr [104; 65533; 105]%N).
Proof. split; [eexists|]; reflexivity. Qed.

(* ------------------------------------------------------------------------- *)
(** * Properties of the handlers *)

Section Handlers.

Variable E : Engine.

Ltac run_handler :=
  unfold vector_search, query_table, add_documents, delete_documents,
    create_table, drop_table, count_rows, count_with_fallback, _get_table,
    bind, try_except, engine_read, engine_write, raise, ret, lift,
    outcome, db_after, calls.

(** Table resolution: one [open_table] call, and 404 for whatever it raises. *)
Lemma get_table_found name t db :
  db_open_table E name db = Ok t ->
  _get_table E name db = (Ok t, db, [Copen_table name]).
Proof. intros H. run_handler. rewrite H. reflexivity. Qed.

Lemma get_table_missing name e db :
  db_open_table E name db = Err e ->
  _get_table E name db
  = (Err (HTTPException 404 (u "Table '" ++ name ++ u "' not found")), db,
     [Copen_table name]).
Proof. intros H. run_handler. rewrite H. reflexivity. Qed.

(** On a table without rows the count is 0 and takes one or two calls,
    neither of them a query. *)
Lemma count_zero t db :
  zero_rows E t db ->
  exists log,
    count_with_fallback E t db = (Ok 0, db, log)
    /\ existsb is_query log = false.
Proof.
  intros [H | (e & H & Hdf)]; run_handler; rewrite H.
  - eexists. split; reflexivity.
  - rewrite Hdf. eexists. split; reflexivity.
Qed.

(** C1.  On a table the engine finds without rows, the vector search and
    the filtered query both answer [{"results": []}], whatever vector,
    filter or limit the request carries, and no search or scan is handed to
    the engine; the engine state is as before. *)
Theorem empty_table_short_circuit name t db
    (sbody : SearchRequest.t) (qbody : QueryRequest.t) :
  db_open_table E name db = Ok t ->
  zero_rows E t db ->
  (outcome (vector_search E name sbody db) = Ok (PyDict [(u "results", PyList [])])
   /\ existsb is_query (calls (vector_search E name sbody db)) = false
   /\ db_after (vector_search E name sbody db) = db)
  /\ (outcome (query_table E name qbody db) = Ok (PyDict [(u "results", PyList [])])
      /\ existsb is_query (calls (query_table E name qbody db)) = false
      /\ db_after (query_table E name qbody db) = db).
Proof.
  intros Hopen Hzero.
  destruct (count_zero Hzero) as (log & Hcount & Hlog).
  split.
  - unfold vector_search, bind. rewrite (get_table_found _ _ Hopen), Hcount.
    unfold outcome, calls, db_after, ret. simpl.
    rewrite app_nil_r, Hlog. repeat split; reflexivity.
  - unfold query_table, bind. rewrite (get_table_found _ _ Hopen), Hcount.
    unfold outcome, calls, db_after, ret. simpl.
    rewrite app_nil_r, Hlog. repeat split; reflexivity.
Qed.

(** A failure of [create_table] in the engine whose message holds the words
    is answered 409. *)
Lemma create_table_reported name (body : TableCreateRequest.t) db e db' :
  TableCreateRequest.data body <> [] ->
  db_create_table E name (TableCreateRequest.data body) db = (Err e, db') ->
  str_in (u "already exists") (lower (str_of_exn e)) = true ->
  outcome (create_table E name body db)
  = Err (HTTPException 409 (u "Table '" ++ name ++ u "' already exists")).
Proof.
  intros Hne Hcreate Hmsg. run_handler.
  destruct (TableCreateRequest.data body) as [|d ds]; [congruence|].
  rewrite Hcreate. cbv beta iota. rewrite Hmsg. reflexivity.
Qed.

(** Any other failure of [create_table] in the engine is answered 500 with
    the engine's message. *)
Lemma create_table_internal name (body : TableCreateRequest.t) db e db' :
  TableCreateRequest.data body <> [] ->
  db_create_table E name (TableCreateRequest.data body) db = (Err e, db') ->
  str_in (u "already exists") (lower (str_of_exn e)) = false ->
  outcome (create_table E name body db) = Err (HTTPException 500 (str_of_exn e)).
Proof.
  intros Hne Hcreate Hmsg. run_handler.
  destruct (TableCreateRequest.data body) as [|d ds]; [congruence|].
  rewrite Hcreate. cbv beta iota. rewrite Hmsg. reflexivity.
Qed.

(** C2, as the code has it.  When the engine refuses a create request
    with a non-empty payload, the answer follows the engine's message: 409
    when it holds the words "already exists" in any letter case, 500 with the
    message as detail when it does not; so the answer is 409 exactly when the
    engine reports the name as taken in these words. *)
Theorem create_table_refusal_by_message name (body : TableCreateRequest.t) db e db' :
  TableCreateRequest.data body <> [] ->
  db_create_table E name (TableCreateRequest.data body) db = (Err e, db') ->
  outcome (create_table E name body db)
  = (if str_in (u "already exists") (lower (str_of_exn e))
     then Err (HTTPException 409 (u "Table '" ++ name ++ u "' already exists"))
     else Err (HTTPException 500 (str_of_exn e)))
  /\ (http_status (outcome (create_table E name body db)) = 409
      <-> str_in (u "already exists") (lower (str_of_exn e)) = true).
Proof.
  intros Hne Hcreate.
  destruct (str_in (u "already exists") (lower (str_of_exn e))) eqn:Hmsg.
  - rewrite (create_table_reported name body db Hne Hcreate Hmsg).
    split; [reflexivity | split; reflexivity].
  - rewrite (create_table_internal name body db Hne Hcreate Hmsg).
    split; [reflexivity | split; discriminate].
Qed.

(** C3, as the code has it.  The drop handler makes one [drop_table] call;
    it answers [{"deleted": name}] when the call returns and 404 when the
    call raises, whatever the exception: it has no 500 path. *)
Theorem drop_table_404_on_any_failure name db :
  drop_table E name db
  = (match fst (db_drop_table E name db) with
     | Ok _ => Ok (PyDict [(u "deleted", PyStr name)])
     | Err _ => Err (HTTPException 404 (u "Table '" ++ name ++ u "' not found"))
     end,
     snd (db_drop_table E name db),
     [Cdrop_table name]).
Proof.
  run_handler. destruct (db_drop_table E name db) as [[u0|e] db']; reflexivity.
Qed.

(** C4, as the code has it.  An empty document list never reaches the
    engine's [create_table] or [add].  The create handler answers 400
    without any engine call.  The add handler opens the table first: it
    answers 400 when the table opens and 404 when it does not. *)
Theorem empty_batch_rejected name db :
  create_table E name {| TableCreateRequest.data := [] |} db
  = (Err (HTTPException 400 (u "Data array must not be empty")), db, [])
  /\ add_documents E name {| AddDocumentsRequest.data := [] |} db
     = (match db_open_table E name db with
        | Ok _ => Err (HTTPException 400 (u "Data array must not be empty"))
        | Err _ => Err (HTTPException 404 (u "Table '" ++ name ++ u "' not found"))
        end,
        db,
        [Copen_table name])
  /\ existsb is_write_batch
       (calls (add_documents E name {| AddDocumentsRequest.data := [] |} db)) = false.
Proof.
  run_handler. destruct (db_open_table E name db); simpl; repeat split; reflexivity.
Qed.

Lemma filter_keeps_all {A} (p : A -> bool) (l : list A) :
  forallb p l = true -> filter p l = l.
Proof.
  induction l as [|a l IH]; simpl; intros H; [reflexivity|].
  apply andb_true_iff in H. destruct H as [Ha Hl]. rewrite Ha, (IH Hl). reflexivity.
Qed.

(** C5, as the code has it.  Once the table opens: an empty filter is
    answered 400 and nothing is deleted (a body without a filter is refused
    by the request model and does not reach the handler); a non-empty filter
    is handed to the engine in one [delete] call, and when no row of the
    table satisfies it, on an engine whose [delete] removes the rows that
    satisfy the filter and whose [count_rows] counts the rows, the answer is
    [{"deleted": true}] and the row count after the request is the row count
    before it. *)
Theorem delete_documents_rules name t db (R : TableReading E) :
  db_open_table E name db = Ok t ->
  delete_documents E name {| DeleteRequest.filter := [] |} db
  = (Err (HTTPException 400 (u "Filter expression is required")), db,
     [Copen_table name])
  /\ DeleteRequest.validate None = None
  /\ forall f db',
       f <> [] ->
       deletes_matching R t f db db' ->
       counts_rows R t db ->
       counts_rows R t db' ->
       matches_no_row R t f db ->
       delete_documents E name {| DeleteRequest.filter := f |} db
       = (Ok (PyDict [(u "deleted", PyBool true)]), db',
          [Copen_table name; Cdelete t f])
       /\ table_count_rows E t
            (db_after (delete_documents E name {| DeleteRequest.filter := f |} db))
          = table_count_rows E t db.
Proof.
  intros Hopen. split; [|split; [reflexivity|]].
  - unfold delete_documents, bind. rewrite (get_table_found _ _ Hopen). reflexivity.
  - intros f db' Hne [Hdel Hrows] Hcount Hcount' Hnone.
    assert (Hrun : delete_documents E name {| DeleteRequest.filter := f |} db
                   = (Ok (PyDict [(u "deleted", PyBool true)]), db',
                      [Copen_table name; Cdelete t f])).
    { unfold delete_documents, bind. rewrite (get_table_found _ _ Hopen).
      destruct f as [|c f]; [congruence|].
      unfold DeleteRequest.filter, str_truthy, engine_write.
      rewrite Hdel. reflexivity. }
    split; [exact Hrun|].
    rewrite Hrun. unfold db_after, fst, snd.
    unfold counts_rows in Hcount, Hcount'. unfold matches_no_row in Hnone.
    rewrite Hcount', Hcount, Hrows, (filter_keeps_all _ _ Hnone). reflexivity.
Qed.

(** C10.  When the table does not open, the add and delete handlers answer
    404 after the one [open_table] call, also for an empty document list or
    an empty filter: the payload is not looked at. *)
Theorem not_found_before_validation name e db
    (abody : AddDocumentsRequest.t) (dbody : DeleteRequest.t) :
  db_open_table E name db = Err e ->
  add_documents E name abody db
  = (Err (HTTPException 404 (u "Table '" ++ name ++ u "' not found")), db,
     [Copen_table name])
  /\ delete_documents E name dbody db
     = (Err (HTTPException 404 (u "Table '" ++ name ++ u "' not found")), db,
        [Copen_table name]).
Proof.
  intros Hopen. unfold add_documents, delete_documents, bind.
  rewrite (get_table_missing _ _ Hopen). split; reflexivity.
Qed.

(** Case analysis on what the engine answers to each call of a run. *)
Ltac split_engine_answers :=
  repeat (cbv beta iota zeta;
          match goal with
          | |- context [db_open_table E ?n ?d] => destruct (db_open_table E n d)
          | |- context [table_count_rows E ?t ?d] => destruct (table_count_rows E t d)
          | |- context [table_to_pandas E ?t ?d] => destruct (table_to_pandas E t d)
          | |- context [Z.eqb ?a 0] => destruct (Z.eqb a 0)
          | |- context [opt_str_truthy ?f] => destruct (opt_str_truthy f)
          | |- context [query_to_arrow E ?t ?q ?d] => destruct (query_to_arrow E t q d)
          | |- context [_rows_to_dicts ?r] => destruct (_rows_to_dicts r)
          end).

Ltac limit_of_each_call :=
  repeat (constructor; [intros ? ? Hcall; inversion Hcall; subst; reflexivity|]);
  constructor.

Lemma search_calls_carry_limit name db (body : SearchRequest.t) :
  Forall (fun c => forall t q, c = Cto_arrow t q ->
                               q_limit q = Some (SearchRequest.limit body))
         (calls (vector_search E name body db)).
Proof.
  run_handler. cbv zeta. split_engine_answers; simpl; limit_of_each_call.
Qed.

Lemma query_calls_carry_limit name db (body : QueryRequest.t) :
  Forall (fun c => forall t q, c = Cto_arrow t q ->
                               q_limit q = Some (QueryRequest.limit body))
         (calls (query_table E name body db)).
Proof.
  run_handler. cbv zeta. split_engine_answers; simpl; limit_of_each_call.
Qed.

(** On a table that opens and counts [n] rows, [n] not 0, the search is
    executed, with the caller's vector, filter and limit. *)
Lemma search_executes name t db n (body : SearchRequest.t) :
  db_open_table E name db = Ok t ->
  outcome (count_with_fallback E t db) = Ok n ->
  n <> 0 ->
  exists q,
    In (Cto_arrow t q) (calls (vector_search E name body db))
    /\ q_limit q = Some (SearchRequest.limit body)
    /\ q_where q = opt_str_truthy (SearchRequest.filter body)
    /\ q_vector q = Some (SearchRequest.vector body).
Proof.
  intros Hopen Hcount Hn. apply Z.eqb_neq in Hn.
  destruct (count_with_fallback E t db) as [[r db'] log] eqn:Hc.
  unfold outcome in Hcount. simpl in Hcount. subst r.
  unfold vector_search, bind. rewrite (get_table_found _ _ Hopen), Hc, Hn.
  cbv zeta. unfold engine_read at 1.
  match goal with
  | |- context [Cto_arrow t ?q0] => exists q0
  end.
  split.
  - unfold calls.
    destruct (query_to_arrow E t _ db') as [res|e]; simpl;
      [destruct (_rows_to_dicts res); simpl|];
      right; apply in_or_app; right; left; reflexivity.
  - destruct (opt_str_truthy (SearchRequest.filter body));
      destruct (str_truthy (SearchRequest.distance_type body));
      repeat split; reflexivity.
Qed.

Lemma query_executes name t db n (body : QueryRequest.t) :
  db_open_table E name db = Ok t ->
  outcome (count_with_fallback E t db) = Ok n ->
  n <> 0 ->
  exists q,
    In (Cto_arrow t q) (calls (query_table E name body db))
    /\ q_limit q = Some (QueryRequest.limit body)
    /\ q_where q = opt_str_truthy (QueryRequest.filter body).
Proof.
  intros Hopen Hcount Hn. apply Z.eqb_neq in Hn.
  destruct (count_with_fallback E t db) as [[r db'] log] eqn:Hc.
  unfold outcome in Hcount. simpl in Hcount. subst r.
  unfold query_table, bind. rewrite (get_table_found _ _ Hopen), Hc, Hn.
  cbv zeta. unfold engine_read at 1.
  match goal with
  | |- context [Cto_arrow t ?q0] => exists q0
  end.
  split.
  - unfold calls.
    destruct (query_to_arrow E t _ db') as [res|e]; simpl;
      [destruct (_rows_to_dicts res); simpl|];
      right; apply in_or_app; right; left; reflexivity.
  - destruct (opt_str_truthy (QueryRequest.filter body));
      repeat split; reflexivity.
Qed.

(** C9.  Every query the two handlers hand to the engine carries the
    limit of the request, with or without a filter, and on a table with
    rows the query is executed.  A search request that leaves the limit out
    has limit 10, a query request 100. *)
Theorem limit_always_applied name db (sbody : SearchRequest.t) (qbody : QueryRequest.t) :
  Forall (fun c => forall t q, c = Cto_arrow t q ->
                               q_limit q = Some (SearchRequest.limit sbody))
         (calls (vector_search E name sbody db))
  /\ Forall (fun c => forall t q, c = Cto_arrow t q ->
                                  q_limit q = Some (QueryRequest.limit qbody))
            (calls (query_table E name qbody db))
  /\ (forall t n,
        db_open_table E name db = Ok t ->
        outcome (count_with_fallback E t db) = Ok n ->
        n <> 0 ->
        (exists q,
           In (Cto_arrow t q) (calls (vector_search E name sbody db))
           /\ q_limit q = Some (SearchRequest.limit sbody)
           /\ q_where q = opt_str_truthy (SearchRequest.filter sbody))
        /\ (exists q,
              In (Cto_arrow t q) (calls (query_table E name qbody db))
              /\ q_limit q = Some (QueryRequest.limit qbody)
              /\ q_where q = opt_str_truthy (QueryRequest.filter qbody)))
  /\ (forall vector distance_type filter,
        option_map SearchRequest.limit
          (SearchRequest.validate (Some vector) None distance_type filter)
        = Some 10)
  /\ (forall filter, QueryRequest.limit (QueryRequest.validate filter None) = 100).
Proof.
  split; [apply search_calls_carry_limit|].
  split; [apply query_calls_carry_limit|].
  split; [|split; intros; reflexivity].
  intros t n Hopen Hcount Hn. split.
  - destruct (@search_executes name t db n sbody Hopen Hcount Hn)
      as (q & Hin & Hlim & Hwhere & _).
    exists q. repeat split; assumption.
  - exact (@query_executes name t db n qbody Hopen Hcount Hn).
Qed.

End Handlers.

(* ------------------------------------------------------------------------- *)
(** * The handlers on the in-memory engine *)

(** The table [empty] on an engine without the fast count: both handlers
    answer the empty result after the count, with no query. *)
Lemma empty_table_short_circuit_witness :
  (outcome (vector_search MemDB.engine (u "empty") MemDB.sample_search
              MemDB.sample_slow_count)
   = Ok (PyDict [(u "results", PyList [])])
   /\ existsb is_query
        (calls (vector_search MemDB.engine (u "empty") MemDB.sample_search
                  MemDB.sample_slow_count)) = false
   /\ db_after (vector_search MemDB.engine (u "empty") MemDB.sample_search
                  MemDB.sample_slow_count) = MemDB.sample_slow_count)
  /\ (outcome (query_table MemDB.engine (u "empty") MemDB.sample_query
                 MemDB.sample_slow_count)
      = Ok (PyDict [(u "results", PyList [])])
      /\ existsb is_query
           (calls (query_table MemDB.engine (u "empty") MemDB.sample_query
                     MemDB.sample_slow_count)) = false
      /\ db_after (query_table MemDB.engine (u "empty") MemDB.sample_query
                     MemDB.sample_slow_count) = MemDB.sample_slow_count).
Proof.
  apply (@empty_table_short_circuit MemDB.engine (u "empty") (u "empty")
           MemDB.sample_slow_count MemDB.sample_search MemDB.sample_query).
  - reflexivity.
  - right. eexists. split; reflexivity.
Defined.

(** Creating [docs] again, with one document: the engine says the table
    already exists. *)
Lemma create_table_refusal_by_message_witness :
  outcome (create_table MemDB.engine (u "docs")
             {| TableCreateRequest.data := [MemDB.hello] |} MemDB.sample)
  = Err (HTTPException 409 (u "Table '" ++ u "docs" ++ u "' already exists"))
  /\ (http_status
        (outcome (create_table MemDB.engine (u "docs")
                    {| TableCreateRequest.data := [MemDB.hello] |} MemDB.sample))
      = 409
      <-> str_in (u "already exists")
            (lower (str_of_exn
                      (Exception (u "Table '" ++ u "docs" ++ u "' already exists"))))
          = true).
Proof.
  apply (@create_table_refusal_by_message MemDB.engine (u "docs")
           {| TableCreateRequest.data := [MemDB.hello] |} MemDB.sample
           (Exception (u "Table '" ++ u "docs" ++ u "' already exists")) MemDB.sample).
  - discriminate.
  - reflexivity.
Defined.

(** C2, as stated, fails: the table [docs] exists and the payload is not
    empty, but the engine refuses the payload (a document without fields)
    before it looks at the name, and the answer is 500, not 409. *)
Lemma create_existing_table_refused_payload :
  db_open_table SchemaDB.engine (u "docs") MemDB.sample = Ok (u "docs")
  /\ http_status
       (outcome (create_table SchemaDB.engine (u "docs")
                   {| TableCreateRequest.data := [[]] |} MemDB.sample))
     = 500
  /\ http_status
       (outcome (create_table SchemaDB.engine (u "docs")
                   {| TableCreateRequest.data := [[]] |} MemDB.sample))
     <> 409.
Proof. repeat split; try reflexivity. discriminate. Qed.

(** C3, as stated, fails: the table [docs] is there and opens, the engine
    refuses the drop because the storage root is read-only, and the handler
    answers 404, not 500. *)
Lemma drop_table_hides_engine_failure :
  db_open_table MemDB.engine (u "docs") MemDB.sample_read_only = Ok (u "docs")
  /\ fst (db_drop_table MemDB.engine (u "docs") MemDB.sample_read_only)
     = Err (Exception (u "Permission denied (os error 13)"))
  /\ http_status (outcome (drop_table MemDB.engine (u "docs") MemDB.sample_read_only))
     = 404
  /\ http_status (outcome (drop_table MemDB.engine (u "docs") MemDB.sample_read_only))
     <> 500.
Proof. repeat split; try reflexivity. discriminate. Qed.

(** C4, as stated, fails: an empty document list sent to a table that is not
    there is answered 404, not 400. *)
Lemma add_empty_batch_to_missing_table :
  http_status
    (outcome (add_documents MemDB.engine (u "ghost")
                {| AddDocumentsRequest.data := [] |} MemDB.sample))
  = 404
  /\ http_status
       (outcome (add_documents MemDB.engine (u "ghost")
                   {| AddDocumentsRequest.data := [] |} MemDB.sample))
     <> 400.
Proof. split; [reflexivity | discriminate]. Qed.

(** C5, as stated, fails: an empty filter sent to a table that is not there
    is answered 404, not 400. *)
Lemma delete_empty_filter_on_missing_table :
  http_status
    (outcome (delete_documents MemDB.engine (u "ghost")
                {| DeleteRequest.filter := [] |} MemDB.sample))
  = 404
  /\ http_status
       (outcome (delete_documents MemDB.engine (u "ghost")
                   {| DeleteRequest.filter := [] |} MemDB.sample))
     <> 400.
Proof. split; [reflexivity | discriminate]. Qed.

(** On [docs] holding one document that is not archived: the empty filter
    is refused; the filter [archived] matches no row, the answer is
    [{"deleted": true}] and the count stays 1. *)
Lemma delete_documents_rules_witness :
  delete_documents MemDB.engine (u "docs") {| DeleteRequest.filter := [] |}
    MemReading.one_document
  = (Err (HTTPException 400 (u "Filter expression is required")),
     MemReading.one_document, [Copen_table (u "docs")])
  /\ delete_documents MemDB.engine (u "docs")
       {| DeleteRequest.filter := u "archived" |} MemReading.one_document
     = (Ok (PyDict [(u "deleted", PyBool true)]), MemReading.one_document,
        [Copen_table (u "docs"); Cdelete (u "docs") (u "archived")])
  /\ table_count_rows MemDB.engine (u "docs")
       (db_after (delete_documents MemDB.engine (u "docs")
                    {| DeleteRequest.filter := u "archived" |} MemReading.one_document))
     = Ok 1.
Proof.
  destruct (@delete_documents_rules MemDB.engine (u "docs") (u "docs")
              MemReading.one_document MemReading.reading eq_refl)
    as (Hempty & _ & Hdelete).
  split; [exact Hempty|].
  destruct (Hdelete (u "archived") MemReading.one_document) as [Hrun Hcount].
  - discriminate.
  - split; reflexivity.
  - reflexivity.
  - reflexivity.
  - reflexivity.
  - split; [exact Hrun | exact Hcount].
Defined.

(** On the missing table [ghost], with an empty list and an empty filter. *)
Lemma not_found_before_validation_witness :
  add_documents MemDB.engine (u "ghost") {| AddDocumentsRequest.data := [] |} MemDB.sample
  = (Err (HTTPException 404 (u "Table '" ++ u "ghost" ++ u "' not found")),
     MemDB.sample, [Copen_table (u "ghost")])
  /\ delete_documents MemDB.engine (u "ghost") {| DeleteRequest.filter := [] |}
       MemDB.sample
     = (Err (HTTPException 404 (u "Table '" ++ u "ghost" ++ u "' not found")),
        MemDB.sample, [Copen_table (u "ghost")]).
Proof.
  apply (@not_found_before_validation MemDB.engine (u "ghost")
           (Exception (u "Table '" ++ u "ghost" ++ u "' was not found"))
           MemDB.sample).
  reflexivity.
Defined.

(** The end-to-end example of the interface on the in-memory engine: a
    limit-1 search of [docs] answers one row, the first one stored. *)
Example search_docs_limit_one :
  outcome (vector_search MemDB.engine (u "docs")
             {| SearchRequest.vector := [0.5; 0.25; 0.125]%float;
                SearchRequest.limit := 1;
                SearchRequest.distance_type := u "cosine";
                SearchRequest.filter := None |} MemDB.sample)
  = Ok (PyDict [(u "results", PyList [PyDict MemDB.hello])]).
Proof. reflexivity. Qed.

(** A search of [docs], which has rows: the engine is handed one query, and
    it carries the limit and the filter of the request. *)
Lemma limit_always_applied_witness :
  exists q,
    In (Cto_arrow (u "docs") q)
       (calls (vector_search MemDB.engine (u "docs") MemDB.sample_search MemDB.sample))
    /\ q_limit q = Some 1
    /\ q_where q = Some (u "archived").
Proof.
  exact (proj1 (proj1 (proj2 (proj2
           (@limit_always_applied MemDB.engine (u "docs") MemDB.sample
              MemDB.sample_search MemDB.sample_query)))
           (u "docs") 2 eq_refl eq_refl ltac:(discriminate))).
Defined.


(* ------------------------------------------------------------------------- *)
(** * Further properties of the decoder and of the normalizer *)

(** X1.  A buffer of ASCII bytes decodes to the same code points, byte for
    byte, under either error mode, and the normalizer turns it into that
    text. *)
Theorem ascii_bytes_pass_through (mode : errors_mode) (bs : list byte) :
  Forall (fun b => (Byte.to_N b < 128)%N) bs ->
  utf8_decode mode bs = Ok (map Byte.to_N bs)
  /\ _to_serializable (PyBytes bs) = Ok (PyStr (map Byte.to_N bs)).
Proof.
  intros Hascii.
  assert (Hdec : forall m, utf8_decode m bs = Ok (map Byte.to_N bs)).
  { intros m. induction Hascii as [|b bs Hb _ IH]; [reflexivity|].
    apply N.ltb_lt in Hb. simpl. rewrite Hb, IH. reflexivity. }
  split; [apply Hdec|]. simpl. rewrite Hdec. reflexivity.
Qed.

Lemma ascii_bytes_pass_through_witness :
  utf8_decode strict [x68; x65; x6c; x6c; x6f] = Ok (map Byte.to_N [x68; x65; x6c; x6c; x6f])
  /\ _to_serializable (PyBytes [x68; x65; x6c; x6c; x6f])
     = Ok (PyStr (map Byte.to_N [x68; x65; x6c; x6c; x6f])).
Proof.
  apply (@ascii_bytes_pass_through strict [x68; x65; x6c; x6c; x6f]).
  repeat constructor.
Defined.

Lemma emit_length c r s (n : nat) :
  emit c r = Ok s ->
  (forall s', r = Ok s' -> (length s' <= n)%nat) ->
  (length s <= S n)%nat.
Proof.
  intros H Hr. apply emit_ok in H. destruct H as (s' & Hs' & ->).
  simpl. apply le_n_S. apply Hr. exact Hs'.
Qed.

Lemma decode_error_length mode msg r s (n : nat) :
  decode_error mode msg r = Ok s ->
  (forall s', r = Ok s' -> (length s' <= n)%nat) ->
  (length s <= S n)%nat.
Proof.
  destruct mode; simpl; [discriminate|].
  intros H Hr. destruct r as [s'|e]; simpl in H; [|discriminate].
  injection H as <-. simpl. apply le_n_S. apply Hr. reflexivity.
Qed.

Lemma utf8_decode_length_bounded (mode : errors_mode) (n : nat) :
  forall bs s, (length bs <= n)%nat ->
    utf8_decode mode bs = Ok s -> (length s <= length bs)%nat.
Proof.
  induction n as [|n IH]; intros bs s Hle.
  - destruct bs; [intros H; injection H as <-; simpl; lia | simpl in Hle; lia].
  - destruct bs as [|b1 r1]; [intros H; injection H as <-; simpl; lia|].
    simpl in Hle. simpl utf8_decode.
    change (length (b1 :: r1)) with (S (length r1)).
    remember (length r1) as m eqn:Hm.
    decode_cases; intros H;
      (first [ apply (@emit_length _ _ _ m) in H
             | apply (@decode_error_length _ _ _ _ m) in H ];
       [ exact H
       | intros s' Hs';
         first [ injection Hs' as <-; simpl in *; lia
               | apply IH in Hs'; simpl in *; lia ] ]).
Qed.

(** X2.  The text the normalizer makes of a byte buffer never has more code
    points than the buffer has bytes: each U+FFFD stands for at least one
    byte. *)
Theorem decoded_text_not_longer (bs : list byte) :
  exists s, _to_serializable (PyBytes bs) = Ok (PyStr s)
            /\ (length s <= length bs)%nat.
Proof.
  destruct (utf8_decode_replace_total bs) as [s Hs]. exists s. split.
  - simpl. rewrite Hs. reflexivity.
  - apply (@utf8_decode_length_bounded replace (length bs)); [lia | exact Hs].
Qed.

Lemma mapM_Forall2 {A B} (f : A -> PyResult B) :
  forall l l', mapM f l = Ok l' -> Forall2 (fun a b => f a = Ok b) l l'.
Proof.
  induction l as [|a l IH]; simpl; intros l' H.
  - injection H as <-. constructor.
  - destruct (f a) as [b|e] eqn:Hfa; simpl in H; [|discriminate].
    destruct (mapM f l) as [bs|e] eqn:Hl; simpl in H; [|discriminate].
    injection H as <-. constructor; [exact Hfa | apply IH; reflexivity].
Qed.

Lemma NoDup_distinct (keys : list pystr) : NoDup keys -> distinct keys = true.
Proof.
  induction 1 as [|k keys Hk _ IH]; simpl; [reflexivity|].
  rewrite IH, andb_true_r. apply negb_true_iff.
  destruct (existsb (pystr_eqb k) keys) eqn:Hex; [|reflexivity].
  apply existsb_exists in Hex. destruct Hex as (k' & Hin & Heq).
  apply pystr_eqb_eq in Heq. subst k'. contradiction.
Qed.

(** Setting an item keeps the keys apart, and keeps any property the values
    have when the new value has it. *)
Lemma dict_setitem_keys k v (d : list (pystr * Value)) :
  forall k', In k' (map fst (dict_setitem k v d)) <-> k' = k \/ In k' (map fst d).
Proof.
  induction d as [|[k0 v0] d IH]; simpl; intros k'.
  - split; [intros [<-|[]]; left; reflexivity | intros [->|[]]; left; reflexivity].
  - destruct (pystr_eqb k k0) eqn:Hk; simpl.
    + apply pystr_eqb_eq in Hk. subst k0.
      split; [intros [<-|H]; [left; reflexivity | right; right; exact H]
             | intros [->|[<-|H]]; [left; reflexivity | left; reflexivity | right; exact H]].
    + rewrite IH.
      split; [intros [H|[H|H]]; [right; left; exact H | left; exact H | right; right; exact H]
             | intros [H|[H|H]]; [right; left; exact H | left; exact H | right; right; exact H]].
Qed.

Lemma dict_setitem_NoDup k v (d : list (pystr * Value)) :
  NoDup (map fst d) -> NoDup (map fst (dict_setitem k v d)).
Proof.
  induction d as [|[k0 v0] d IH]; simpl; intros Hnd.
  - constructor; [intros [] | constructor].
  - inversion Hnd as [|? ? Hk0 Hd]; subst.
    destruct (pystr_eqb k k0) eqn:Hk; simpl.
    + constructor; assumption.
    + constructor; [|apply IH; exact Hd].
      intros Hin. apply dict_setitem_keys in Hin. destruct Hin as [->|Hin].
      * rewrite pystr_eqb_refl in Hk. discriminate.
      * contradiction.
Qed.

Lemma dict_setitem_values (P : Value -> Prop) k v (d : list (pystr * Value)) :
  P v -> Forall (fun kv => P (snd kv)) d ->
  Forall (fun kv => P (snd kv)) (dict_setitem k v d).
Proof.
  intros Hv. induction 1 as [|[k0 v0] d H0 Hd IH]; simpl.
  - constructor; [exact Hv | constructor].
  - destruct (pystr_eqb k k0); constructor; try assumption.
Qed.

Lemma dict_comprehension_invariant (f : Value -> PyResult Value) (P : Value -> Prop) :
  forall items acc out,
    Forall (fun kv => forall v', f (snd kv) = Ok v' -> P v') items ->
    NoDup (map fst acc) ->
    Forall (fun kv => P (snd kv)) acc ->
    dict_comprehension f items acc = Ok out ->
    NoDup (map fst out) /\ Forall (fun kv => P (snd kv)) out.
Proof.
  induction items as [|[k v] items IH]; simpl; intros acc out Hf Hnd Hacc H.
  - injection H as <-. split; assumption.
  - inversion Hf as [|? ? Hv Hrest]; subst. simpl in Hv.
    destruct (f v) as [v'|e]; simpl in H; [|discriminate].
    apply (IH _ _ Hrest) in H; [exact H | |].
    + apply dict_setitem_NoDup. exact Hnd.
    + apply dict_setitem_values; [apply Hv; reflexivity | exact Hacc].
Qed.

(** A comprehension over a dict with distinct keys gives the items one for
    one: the same keys in the same order, each value sent through [f]. *)
Lemma dict_comprehension_itemwise (f : Value -> PyResult Value) :
  forall items acc out,
    NoDup (map fst (acc ++ items)) ->
    dict_comprehension f items acc = Ok out ->
    exists items',
      out = acc ++ items'
      /\ map fst items' = map fst items
      /\ Forall2 (fun kv kv' => f (snd kv) = Ok (snd kv')) items items'.
Proof.
  induction items as [|[k v] items IH]; simpl; intros acc out Hnd H.
  - injection H as <-. exists []. rewrite app_nil_r. repeat split. constructor.
  - destruct (f v) as [v'|e] eqn:Hv; simpl in H; [|discriminate].
    rewrite dict_setitem_fresh in H.
    + apply IH in H.
      * destruct H as (items' & -> & Hkeys & Hall).
        exists ((k, v') :: items'). rewrite <- app_assoc. simpl.
        repeat split; [rewrite Hkeys; reflexivity|].
        constructor; [exact Hv | exact Hall].
      * rewrite <- app_assoc. rewrite map_app in Hnd |- *. exact Hnd.
    + rewrite map_app in Hnd. simpl in Hnd. apply NoDup_remove_2 in Hnd.
      intros Hin. apply Hnd. apply in_or_app. left. exact Hin.
Qed.

Lemma dict_comprehension_each (f : Value -> PyResult Value) :
  forall items acc out,
    dict_comprehension f items acc = Ok out ->
    Forall (fun kv => exists v', f (snd kv) = Ok v') items.
Proof.
  induction items as [|[k v] items IH]; simpl; intros acc out H; [constructor|].
  destruct (f v) as [v'|e] eqn:Hv; simpl in H; [|discriminate].
  constructor; [exists v'; exact Hv | apply (IH _ _ H)].
Qed.

(** X3.  When the normalizer returns for a list or for a dict, it has
    worked element by element: the result is a list of the same length and
    order, or a dict with the same keys in the same order, and each element
    is the normalization of the element at its place. *)
Theorem to_serializable_elementwise :
  (forall l v', _to_serializable (PyList l) = Ok v' ->
     exists l', v' = PyList l'
                /\ Forall2 (fun v w => _to_serializable v = Ok w) l l')
  /\ (forall items v',
        distinct (map fst items) = true ->
        _to_serializable (PyDict items) = Ok v' ->
        exists items',
          v' = PyDict items'
          /\ map fst items' = map fst items
          /\ Forall2 (fun kv kv' => _to_serializable (snd kv) = Ok (snd kv'))
                     items items').
Proof.
  split.
  - intros l v' H. simpl in H.
    destruct (mapM _to_serializable l) as [l'|e] eqn:Hl; simpl in H; [|discriminate].
    injection H as <-. exists l'. split; [reflexivity | apply mapM_Forall2; exact Hl].
  - intros items v' Hkeys H. simpl in H.
    destruct (dict_comprehension _to_serializable items []) as [out|e] eqn:Hd;
      simpl in H; [|discriminate].
    injection H as <-.
    apply dict_comprehension_itemwise in Hd; [|apply distinct_NoDup; exact Hkeys].
    destruct Hd as (items' & -> & Hk & Hall).
    exists items'. repeat split; assumption.
Qed.

(** A row of two fields and a list of two elements. *)
Lemma to_serializable_elementwise_witness :
  (exists l',
     PyList [PyInt 7; PyStr [104; 105]%N] = PyList l'
     /\ Forall2 (fun v w => _to_serializable v = Ok w)
                [NpInteger 7; PyBytes [x68; x69]] l')
  /\ (exists items',
        PyDict [(u "id", PyInt 7); (u "on", PyBool true)] = PyDict items'
        /\ map fst items' = map fst [(u "id", NpInteger 7); (u "on", NpBool true)]
        /\ Forall2 (fun kv kv' => _to_serializable (snd kv) = Ok (snd kv'))
                   [(u "id", NpInteger 7); (u "on", NpBool true)] items').
Proof.
  split.
  - apply (proj1 to_serializable_elementwise [NpInteger 7; PyBytes [x68; x69]]).
    reflexivity.
  - apply (proj2 to_serializable_elementwise
             [(u "id", NpInteger 7); (u "on", NpBool true)]);
      reflexivity.
Defined.

Lemma plain_unchanged (v : Value) : plain v = true -> _to_serializable v = Ok v.
Proof.
  revert v.
  apply (Value_nested_ind (P := fun v => plain v = true -> _to_serializable v = Ok v));
    [intros l IH | intros items IH | intros v].
  - simpl. intros Hp. rewrite mapM_id; [reflexivity|].
    rewrite forallb_forall in Hp. rewrite Forall_forall in IH |- *.
    intros x Hx. apply IH; [exact Hx | apply Hp; exact Hx].
  - simpl. intros Hp. apply andb_true_iff in Hp. destruct Hp as [Hkeys Hvals].
    rewrite (@dict_comprehension_id _to_serializable items []); [reflexivity | |].
    + apply distinct_NoDup. exact Hkeys.
    + rewrite forallb_forall in Hvals. rewrite Forall_forall in IH |- *.
      intros kv Hkv. apply IH; [exact Hkv | apply Hvals; exact Hkv].
  - destruct v; try exact I; simpl; intros Hp; try discriminate Hp; reflexivity.
Qed.

Lemma primitive_tolist_plain (a : ndarray Value) :
  primitive a = true -> plain (tolist a) = true.
Proof.
  revert a.
  apply (ndarray_nested_ind (P := fun a => primitive a = true -> plain (tolist a) = true));
    [intros x | intros xs IH].
  - destruct x; simpl; intros H; try discriminate H; reflexivity.
  - simpl. intros H. rewrite forallb_forall in H.
    apply forallb_forall. intros v Hv. apply in_map_iff in Hv.
    destruct Hv as (x & <- & Hx). rewrite Forall_forall in IH.
    apply IH; [exact Hx | apply H; exact Hx].
Qed.

Lemma Forall2_in_right {A B} (R : A -> B -> Prop) (l : list A) (l' : list B) (b : B) :
  Forall2 R l l' -> In b l' -> exists a, In a l /\ R a b.
Proof.
  induction 1 as [|a b' l l' Hab _ IH]; simpl; intros Hin; [contradiction|].
  destruct Hin as [->|Hin].
  - exists a. split; [left; reflexivity | exact Hab].
  - destruct (IH Hin) as (a' & Ha' & HR). exists a'. split; [right; exact Ha' | exact HR].
Qed.

Lemma mapM_plain_elements (elems : list (PyResult Value)) :
  forallb plain_element elems = true ->
  exists l, mapM (fun x => x) elems = Ok l /\ forallb plain l = true.
Proof.
  induction elems as [|r elems IH]; simpl; intros H.
  - exists []. split; reflexivity.
  - apply andb_true_iff in H. destruct H as [Hr Hrest].
    destruct r as [v|e]; [|discriminate]. destruct (IH Hrest) as (l & Hl & Hplain).
    simpl. rewrite Hl. exists (v :: l). split; [reflexivity|].
    simpl. simpl in Hr. rewrite Hr, Hplain. reflexivity.
Qed.

Lemma row_value_convertible (v : Value) : row_value v = true -> convertible v = true.
Proof.
  revert v.
  apply (Value_nested_ind (P := fun v => row_value v = true -> convertible v = true));
    [intros l IH | intros items IH | intros v].
  - simpl. intros H. rewrite forallb_forall in H |- *. rewrite Forall_forall in IH.
    intros x Hx. apply IH; [exact Hx | apply H; exact Hx].
  - simpl. intros H. rewrite forallb_forall in H |- *. rewrite Forall_forall in IH.
    intros kv Hkv. apply IH; [exact Hkv | apply H; exact Hkv].
  - destruct v; try exact I; simpl; intros H; try reflexivity.
    + destruct it; [reflexivity | discriminate | discriminate].
    + rewrite forallb_forall in H |- *. intros r Hr. specialize (H r Hr).
      destruct r; [reflexivity | discriminate].
    + rewrite forallb_forall in H |- *. intros chunk Hchunk. specialize (H chunk Hchunk).
      rewrite forallb_forall in H |- *. intros r Hr. specialize (H r Hr).
      destruct r; [reflexivity | discriminate].
Qed.

Lemma row_value_normalizes_plain (v : Value) :
  row_value v = true -> exists v', _to_serializable v = Ok v' /\ plain v' = true.
Proof.
  revert v.
  apply (Value_nested_ind
           (P := fun v => row_value v = true ->
                          exists v', _to_serializable v = Ok v' /\ plain v' = true));
    [intros l IH | intros items IH | intros v].
  - intros Hrow.
    destruct (to_serializable_returns (PyList l) (row_value_convertible _ Hrow))
      as [w Hw].
    simpl in Hrow, Hw |- *. rewrite forallb_forall in Hrow. rewrite Forall_forall in IH.
    destruct (mapM _to_serializable l) as [l'|e] eqn:Hl'; [|discriminate].
    apply mapM_Forall2 in Hl'.
    exists (PyList l'). split; [reflexivity|].
    simpl. apply forallb_forall. intros v' Hv'.
    destruct (@Forall2_in_right _ _ _ _ _ _ Hl' Hv') as (v & Hv & Hnorm).
    destruct (IH v Hv (Hrow v Hv)) as (v'' & Hnorm' & Hplain). congruence.
  - intros Hrow.
    destruct (to_serializable_returns (PyDict items) (row_value_convertible _ Hrow))
      as [w Hw].
    simpl in Hrow, Hw |- *. rewrite forallb_forall in Hrow. rewrite Forall_forall in IH.
    destruct (dict_comprehension _to_serializable items []) as [out|e] eqn:Hd;
      [|discriminate].
    exists (PyDict out). split; [reflexivity|].
    apply (@dict_comprehension_invariant _to_serializable (fun v => plain v = true))
      in Hd; [| | constructor | constructor].
    + destruct Hd as [Hnd Hvals]. simpl. apply andb_true_iff. split.
      * apply NoDup_distinct. exact Hnd.
      * apply forallb_forall. rewrite Forall_forall in Hvals. exact Hvals.
    + apply Forall_forall. intros kv Hkv v' Hv'.
      destruct (IH kv Hkv (Hrow kv Hkv)) as (v'' & Hnorm & Hplain). congruence.
  - destruct v; try exact I; simpl; intros Hrow; try discriminate Hrow;
      try (eexists; split; reflexivity).
    + destruct (utf8_decode_replace_total bs) as [s Hs]. rewrite Hs.
      eexists. split; reflexivity.
    + destruct it; try discriminate Hrow. eexists. split; reflexivity.
    + eexists. split; [reflexivity | apply primitive_tolist_plain; exact Hrow].
    + unfold to_pylist. destruct (mapM_plain_elements elems Hrow) as (l & Hl & Hplain).
      rewrite Hl. eexists. split; [reflexivity | exact Hplain].
    + unfold chunked_to_pylist, to_pylist.
      destruct (mapM_plain_elements (concat chunks) (forallb_concat _ _ Hrow))
        as (l & Hl & Hplain).
      rewrite Hl. eexists. split; [reflexivity | exact Hplain].
Qed.

(** X4.  A value made of what ordinary result rows hold (plain values,
    bytes, numpy numbers and booleans, a [timedelta64] only when it counts
    ticks, arrays whose cells are numbers, booleans or text, arrow arrays whose
    elements convert to plain values, in lists and dicts) is normalized to a
    tree of plain Python values, and normalizing that tree again changes
    nothing. *)
Theorem row_values_become_plain (v : Value) :
  row_value v = true ->
  exists v',
    _to_serializable v = Ok v'
    /\ plain v' = true
    /\ _to_serializable v' = Ok v'.
Proof.
  intros Hrow. destruct (row_value_normalizes_plain v Hrow) as (v' & Hnorm & Hplain).
  exists v'. repeat split; [exact Hnorm | exact Hplain | apply plain_unchanged; exact Hplain].
Qed.

Lemma row_values_become_plain_witness :
  exists v',
    _to_serializable
      (PyDict [(u "id", NpInteger 7);
               (u "score", NpFloating 0.5);
               (u "age", NpTimedelta64 (TdInt 5));
               (u "raw", PyBytes [x68; xff]);
               (u "vector", NpNdarray (NdAxis [NdItem (ItFloating 0.5);
                                              NdItem (ItFloating 0.25)]));
               (u "names", PaArray [Ok (PyStr (u "a")); Ok PyNone]);
               (u "tags", PyList [PyStr (u "a"); PyNone; NpBool true])]) = Ok v'
    /\ plain v' = true
    /\ _to_serializable v' = Ok v'.
Proof.
  apply (@row_values_become_plain
           (PyDict [(u "id", NpInteger 7);
                    (u "score", NpFloating 0.5);
                    (u "age", NpTimedelta64 (TdInt 5));
                    (u "raw", PyBytes [x68; xff]);
                    (u "vector", NpNdarray (NdAxis [NdItem (ItFloating 0.5);
                                                   NdItem (ItFloating 0.25)]));
                    (u "names", PaArray [Ok (PyStr (u "a")); Ok PyNone]);
                    (u "tags", PyList [PyStr (u "a"); PyNone; NpBool true])])).
  reflexivity.
Defined.

(* ------------------------------------------------------------------------- *)
(** * Properties of the row materializer *)

Lemma mapM_convertible (rows : list Value) :
  forallb convertible rows = true -> exists out, mapM _to_serializable rows = Ok out.
Proof.
  intros H. rewrite forallb_forall in H.
  apply mapM_total. apply Forall_forall. intros r Hr.
  apply to_serializable_returns. apply H. exact Hr.
Qed.

(** X5.  A result given as records, as a list or as any iterable of rows
    is materialized in the same way, row by row: when the materializer
    returns there are as many rows, in the same order, each one normalized;
    and it returns whenever every row is one the normalizer returns on. *)
Theorem rows_to_dicts_rowwise (rows : list Value) :
  _rows_to_dicts (HasToPandas rows) = _rows_to_dicts (IsList rows)
  /\ _rows_to_dicts (IsIterable rows) = _rows_to_dicts (IsList rows)
  /\ (forall out, _rows_to_dicts (IsList rows) = Ok out ->
        Forall2 (fun r o => _to_serializable r = Ok o) rows out)
  /\ (forallb convertible rows = true ->
      exists out, _rows_to_dicts (IsList rows) = Ok out).
Proof.
  repeat split.
  - intros out H. unfold _rows_to_dicts in H. simpl in H.
    apply mapM_Forall2. exact H.
  - intros H. unfold _rows_to_dicts. simpl. apply mapM_convertible. exact H.
Qed.

(** Two rows, the second with bytes that are not UTF-8. *)
Lemma rows_to_dicts_rowwise_witness :
  Forall2 (fun r o => _to_serializable r = Ok o)
    [PyDict [(u "id", NpInteger 1)]; PyDict [(u "raw", PyBytes [xff])]]
    [PyDict [(u "id", PyInt 1)]; PyDict [(u "raw", PyStr [65533%N])]]
  /\ exists out,
       _rows_to_dicts
         (IsList [PyDict [(u "id", NpInteger 1)]; PyDict [(u "raw", PyBytes [xff])]])
       = Ok out.
Proof.
  split.
  - apply (proj1 (proj2 (proj2
             (rows_to_dicts_rowwise
                [PyDict [(u "id", NpInteger 1)]; PyDict [(u "raw", PyBytes [xff])]])))).
    reflexivity.
  - apply (proj2 (proj2 (proj2
             (rows_to_dicts_rowwise
                [PyDict [(u "id", NpInteger 1)]; PyDict [(u "raw", PyBytes [xff])]])))).
    reflexivity.
Defined.

Lemma dict_getitem_in {A} (k : pystr) (c : A) (d : list (pystr * A)) :
  NoDup (map fst d) -> In (k, c) d -> dict_getitem k d = Ok c.
Proof.
  induction d as [|[k0 c0] d IH]; simpl; intros Hnd Hin; [contradiction|].
  inversion Hnd as [|? ? Hk0 Hd]; subst.
  destruct Hin as [Heq|Hin].
  - injection Heq as -> ->. rewrite pystr_eqb_refl. reflexivity.
  - rewrite pystr_eqb_neq; [apply IH; assumption|].
    intros ->. apply Hk0. apply in_map_iff. exists (k0, c). split; [reflexivity | exact Hin].
Qed.

Lemma dict_getitem_present {A} (k : pystr) (d : list (pystr * A)) :
  In k (map fst d) -> exists c, dict_getitem k d = Ok c.
Proof.
  induction d as [|[k0 c0] d IH]; simpl; intros Hin; [contradiction|].
  destruct (pystr_eqb k k0) eqn:Hk; [exists c0; reflexivity|].
  destruct Hin as [->|Hin]; [rewrite pystr_eqb_refl in Hk; discriminate|].
  apply IH. exact Hin.
Qed.

Lemma list_getitem_in_range {A} (l : list A) (i : nat) (d : A) :
  (i < length l)%nat -> list_getitem l i = Ok (nth i l d).
Proof.
  intros Hlt. unfold list_getitem. rewrite (nth_error_nth' l d Hlt). reflexivity.
Qed.

Lemma list_getitem_out_of_range {A} (l : list A) (i : nat) :
  (length l <= i)%nat ->
  list_getitem l i = Err (Exception (u "list index out of range")).
Proof.
  intros Hle. unfold list_getitem.
  apply nth_error_None in Hle. rewrite Hle. reflexivity.
Qed.

(** One row of a columnar result: every column long enough gives its cell. *)
Lemma row_of_columns_aligned (pydict : list (pystr * list Value)) (i : nat) :
  forall cols acc,
    (forall kc, In kc cols ->
                dict_getitem (fst kc) pydict = Ok (snd kc)
                /\ (i < length (snd kc))%nat) ->
    NoDup (map fst acc ++ map fst cols) ->
    row_of_columns pydict i (map fst cols) acc
    = Ok (acc ++ map (fun kc => (fst kc, nth i (snd kc) PyNone)) cols).
Proof.
  induction cols as [|[k col] cols IH]; simpl; intros acc Hcols Hnd.
  - rewrite app_nil_r. reflexivity.
  - destruct (Hcols (k, col) (or_introl eq_refl)) as [Hget Hlen]. simpl in Hget, Hlen.
    rewrite Hget. simpl. rewrite (list_getitem_in_range _ PyNone Hlen). simpl.
    rewrite dict_setitem_fresh.
    + rewrite IH.
      * rewrite <- app_assoc. reflexivity.
      * intros kc Hkc. apply Hcols. right. exact Hkc.
      * rewrite map_app. simpl. rewrite <- app_assoc. exact Hnd.
    + apply NoDup_remove_2 in Hnd. intros Hin. apply Hnd.
      apply in_or_app. left. exact Hin.
Qed.

Lemma mapM_map_ok {A B} (f : A -> PyResult B) (g : A -> B) (l : list A) :
  (forall a, In a l -> f a = Ok (g a)) -> mapM f l = Ok (map g l).
Proof.
  induction l as [|a l IH]; simpl; intros H; [reflexivity|].
  rewrite (H a (or_introl eq_refl)). simpl.
  rewrite IH; [reflexivity|]. intros b Hb. apply H. right. exact Hb.
Qed.

Lemma Forall2_map_left {A B C} (R : B -> C -> Prop) (g : A -> B) (l : list A) (l' : list C) :
  Forall2 R (map g l) l' -> Forall2 (fun a c => R (g a) c) l l'.
Proof.
  revert l'. induction l as [|a l IH]; simpl; intros l' H; inversion H; subst;
    constructor; [assumption | apply IH; assumption].
Qed.

Lemma convertible_nth (col : list Value) (i : nat) :
  forallb convertible col = true -> convertible (nth i col PyNone) = true.
Proof.
  intros H. rewrite forallb_forall in H.
  destruct (Nat.lt_ge_cases i (length col)) as [Hlt|Hge].
  - apply H. apply nth_In. exact Hlt.
  - rewrite nth_overflow by exact Hge. reflexivity.
Qed.

(** X6.  A columnar result with distinct column names whose columns are all
    at least as long as the first one is materialized by rows: when the
    materializer returns, there are as many rows as the first column is long,
    row [i] being the normalized dict of the [i]-th cell of every column, in
    column order; and it returns whenever every cell is one the normalizer
    returns on. *)
Theorem columns_become_rows (pydict : list (pystr * list Value)) :
  distinct (map fst pydict) = true ->
  Forall (fun kc => (first_column_length pydict <= length (snd kc))%nat) pydict ->
  (forall out,
     _rows_to_dicts (HasToPydict pydict) = Ok out ->
     length out = first_column_length pydict
     /\ Forall2 (fun i o => _to_serializable (PyDict (transposed_row pydict i)) = Ok o)
                (seq 0 (first_column_length pydict)) out)
  /\ (Forall (fun kc => forallb convertible (snd kc) = true) pydict ->
      exists out, _rows_to_dicts (HasToPydict pydict) = Ok out).
Proof.
  intros Hkeys Hlen. apply distinct_NoDup in Hkeys. rewrite Forall_forall in Hlen.
  set (n := first_column_length pydict) in *.
  assert (Hrows :
    mapM (fun i => rbind (row_of_columns pydict i (map fst pydict) [])
                         (fun r => Ok (PyDict r))) (seq 0 n)
    = Ok (map (fun i => PyDict (transposed_row pydict i)) (seq 0 n))).
  { apply mapM_map_ok. intros i Hi. apply in_seq in Hi.
    rewrite (@row_of_columns_aligned pydict i pydict []); [reflexivity | | exact Hkeys].
    intros [k col] Hkc. simpl. split.
    - apply dict_getitem_in; assumption.
    - specialize (Hlen (k, col) Hkc). simpl in Hlen. lia. }
  assert (Hrun : _rows_to_dicts (HasToPydict pydict)
                 = mapM _to_serializable
                     (map (fun i => PyDict (transposed_row pydict i)) (seq 0 n))).
  { unfold _rows_to_dicts.
    replace (match pydict with [] => 0%nat | (_, col) :: _ => length col end)
      with n by reflexivity.
    rewrite Hrows. reflexivity. }
  rewrite Hrun. split.
  - intros out Hout. apply mapM_Forall2 in Hout. apply Forall2_map_left in Hout.
    split; [|exact Hout].
    apply Forall2_length in Hout. rewrite length_seq in Hout. symmetry. exact Hout.
  - intros Hcells. rewrite Forall_forall in Hcells.
    apply mapM_convertible. apply forallb_forall. intros row Hrow.
    apply in_map_iff in Hrow. destruct Hrow as (i & <- & _).
    simpl. unfold transposed_row. apply forallb_forall. intros kv Hkv.
    apply in_map_iff in Hkv. destruct Hkv as (kc & <- & Hkc). simpl.
    apply convertible_nth. apply Hcells. exact Hkc.
Qed.

Lemma columns_become_rows_witness :
  (length [PyDict [(u "id", PyInt 1); (u "text", PyStr [104; 105]%N)];
           PyDict [(u "id", PyInt 2); (u "text", PyStr [121; 111]%N)]]
   = first_column_length
       [(u "id", [NpInteger 1; NpInteger 2]);
        (u "text", [PyBytes [x68; x69]; PyStr (u "yo"); PyStr (u "dropped")])]
   /\ Forall2 (fun i o =>
                 _to_serializable
                   (PyDict (transposed_row
                              [(u "id", [NpInteger 1; NpInteger 2]);
                               (u "text", [PyBytes [x68; x69]; PyStr (u "yo");
                                           PyStr (u "dropped")])] i)) = Ok o)
              (seq 0 (first_column_length
                        [(u "id", [NpInteger 1; NpInteger 2]);
                         (u "text", [PyBytes [x68; x69]; PyStr (u "yo");
                                     PyStr (u "dropped")])]))
              [PyDict [(u "id", PyInt 1); (u "text", PyStr [104; 105]%N)];
               PyDict [(u "id", PyInt 2); (u "text", PyStr [121; 111]%N)]])
  /\ exists out,
       _rows_to_dicts
         (HasToPydict [(u "id", [NpInteger 1; NpInteger 2]);
                       (u "text", [PyBytes [x68; x69]; PyStr (u "yo");
                                   PyStr (u "dropped")])])
       = Ok out.
Proof.
  destruct (@columns_become_rows
              [(u "id", [NpInteger 1; NpInteger 2]);
               (u "text", [PyBytes [x68; x69]; PyStr (u "yo"); PyStr (u "dropped")])])
    as [Hrows Hreturns].
  - reflexivity.
  - repeat constructor.
  - split.
    + apply Hrows. reflexivity.
    + apply Hreturns. repeat constructor.
Defined.

Lemma row_of_columns_short (pydict : list (pystr * list Value)) (i : nat) k col :
  dict_getitem k pydict = Ok col ->
  (length col <= i)%nat ->
  forall keys acc,
    incl keys (map fst pydict) -> In k keys ->
    row_of_columns pydict i keys acc = Err (Exception (u "list index out of range")).
Proof.
  intros Hget Hshort.
  induction keys as [|k0 keys IH]; simpl; intros acc Hincl Hin; [contradiction|].
  destruct (@dict_getitem_present _ k0 pydict) as [c0 Hc0].
  { apply Hincl. left. reflexivity. }
  rewrite Hc0. simpl.
  destruct (Nat.le_gt_cases (length c0) i) as [Hle|Hgt].
  - rewrite (list_getitem_out_of_range _ Hle). reflexivity.
  - rewrite (list_getitem_in_range _ PyNone Hgt). simpl.
    destruct Hin as [->|Hin].
    + assert (c0 = col) by congruence. subst c0. lia.
    + apply IH; [|exact Hin]. intros x Hx. apply Hincl. right. exact Hx.
Qed.

Lemma row_of_columns_ok_or_index_error (pydict : list (pystr * list Value)) (i : nat) :
  forall keys acc,
    incl keys (map fst pydict) ->
    (exists r, row_of_columns pydict i keys acc = Ok r)
    \/ row_of_columns pydict i keys acc = Err (Exception (u "list index out of range")).
Proof.
  induction keys as [|k0 keys IH]; simpl; intros acc Hincl.
  - left. eexists. reflexivity.
  - destruct (@dict_getitem_present _ k0 pydict) as [c0 Hc0].
    { apply Hincl. left. reflexivity. }
    rewrite Hc0. simpl.
    destruct (Nat.le_gt_cases (length c0) i) as [Hle|Hgt].
    + right. rewrite (list_getitem_out_of_range _ Hle). reflexivity.
    + rewrite (list_getitem_in_range _ PyNone Hgt). simpl.
      apply IH. intros x Hx. apply Hincl. right. exact Hx.
Qed.

Lemma mapM_first_error {A B} (f : A -> PyResult B) (e : PyExn) (l : list A) (a : A) :
  In a l -> f a = Err e ->
  (forall b, In b l -> (exists r, f b = Ok r) \/ f b = Err e) ->
  mapM f l = Err e.
Proof.
  induction l as [|x l IH]; simpl; intros Hin Ha Hall; [contradiction|].
  destruct (Hall x (or_introl eq_refl)) as [[r Hr]|Hr]; rewrite Hr; simpl;
    [|reflexivity].
  destruct Hin as [->|Hin]; [congruence|].
  rewrite IH; [reflexivity | exact Hin | exact Ha |].
  intros b Hb. apply Hall. right. exact Hb.
Qed.

(** X7.  A columnar result with distinct column names in which some column
    is shorter than the first one makes the materializer raise [IndexError]:
    no row is returned, not even the rows every column has. *)
Theorem ragged_columns_raise (pydict : list (pystr * list Value)) k col :
  distinct (map fst pydict) = true ->
  In (k, col) pydict ->
  (length col < first_column_length pydict)%nat ->
  _rows_to_dicts (HasToPydict pydict) = Err (Exception (u "list index out of range")).
Proof.
  intros Hkeys Hin Hshort. apply distinct_NoDup in Hkeys.
  assert (Hget : dict_getitem k pydict = Ok col) by (apply dict_getitem_in; assumption).
  assert (Hk : In k (map fst pydict)).
  { apply in_map_iff. exists (k, col). split; [reflexivity | exact Hin]. }
  unfold _rows_to_dicts.
  replace (match pydict with [] => 0%nat | (_, c) :: _ => length c end)
    with (first_column_length pydict) by reflexivity.
  rewrite (@mapM_first_error _ _ _ (Exception (u "list index out of range"))
             (seq 0 (first_column_length pydict)) (length col)); [reflexivity | | |].
  - apply in_seq. lia.
  - rewrite (@row_of_columns_short pydict (length col) k col Hget (le_n _)
               (map fst pydict) [] (incl_refl _) Hk).
    reflexivity.
  - intros i _.
    destruct (@row_of_columns_ok_or_index_error pydict i (map fst pydict) []
                (incl_refl _)) as [[r Hr]|Hr]; rewrite Hr; simpl;
      [left; eexists; reflexivity | right; reflexivity].
Qed.

Lemma ragged_columns_raise_witness :
  _rows_to_dicts
    (HasToPydict [(u "id", [NpInteger 1; NpInteger 2]); (u "text", [PyStr (u "only")])])
  = Err (Exception (u "list index out of range")).
Proof.
  apply (@ragged_columns_raise
           [(u "id", [NpInteger 1; NpInteger 2]); (u "text", [PyStr (u "only")])]
           (u "text") [PyStr (u "only")]).
  - reflexivity.
  - right. left. reflexivity.
  - simpl. lia.
Defined.

(* ------------------------------------------------------------------------- *)
(** * Further properties of the handlers *)

Section MoreHandlers.

Variable E : Engine.

(** The count makes one or two read calls and leaves the engine as it is. *)
Lemma count_with_fallback_runs (t : Table E) (db : Conn E) :
  exists r log,
    count_with_fallback E t db = (r, db, log)
    /\ (log = [Ccount_rows t] \/ log = [Ccount_rows t; Cto_pandas t]).
Proof.
  unfold count_with_fallback, try_except, engine_read, bind, ret.
  destruct (table_count_rows E t db) as [n|e].
  - eexists. eexists. split; [reflexivity | left; reflexivity].
  - destruct (table_to_pandas E t db) as [df|e'];
      (eexists; eexists; split; [reflexivity | right; reflexivity]).
Qed.

(** What a search does on a table that opens and has rows: after the count,
    one query, built from the request, and the rows the engine returns go
    through the materializer. *)
Lemma vector_search_runs name t db n log (body : SearchRequest.t) :
  db_open_table E name db = Ok t ->
  count_with_fallback E t db = (Ok n, db, log) ->
  n <> 0 ->
  exists q,
    vector_search E name body db
    = (rbind (query_to_arrow E t q db) (fun res =>
       rbind (_rows_to_dicts res) (fun rows =>
       Ok (PyDict [(u "results", PyList rows)]))),
       db, Copen_table name :: log ++ [Cto_arrow t q])
    /\ q_vector q = Some (SearchRequest.vector body)
    /\ q_vector_column_name q = Some (u "vector")
    /\ q_metric q = (if str_truthy (SearchRequest.distance_type body)
                     then Some (SearchRequest.distance_type body) else None)
    /\ q_where q = opt_str_truthy (SearchRequest.filter body)
    /\ q_limit q = Some (SearchRequest.limit body).
Proof.
  intros Hopen Hcount Hn. apply Z.eqb_neq in Hn.
  unfold vector_search, bind. rewrite (get_table_found _ _ _ Hopen), Hcount, Hn.
  cbv zeta. unfold engine_read at 1.
  match goal with
  | |- context [Cto_arrow t ?q0] => exists q0
  end.
  split.
  - destruct (query_to_arrow E t _ db) as [res|e]; simpl;
      [destruct (_rows_to_dicts res); simpl|];
      rewrite ?app_nil_r; reflexivity.
  - destruct (opt_str_truthy (SearchRequest.filter body));
      destruct (str_truthy (SearchRequest.distance_type body));
      repeat split; reflexivity.
Qed.

Lemma query_table_runs name t db n log (body : QueryRequest.t) :
  db_open_table E name db = Ok t ->
  count_with_fallback E t db = (Ok n, db, log) ->
  n <> 0 ->
  exists q,
    query_table E name body db
    = (rbind (query_to_arrow E t q db) (fun res =>
       rbind (_rows_to_dicts res) (fun rows =>
       Ok (PyDict [(u "results", PyList rows)]))),
       db, Copen_table name :: log ++ [Cto_arrow t q])
    /\ q_vector q = None
    /\ q_vector_column_name q = None
    /\ q_metric q = None
    /\ q_where q = opt_str_truthy (QueryRequest.filter body)
    /\ q_limit q = Some (QueryRequest.limit body).
Proof.
  intros Hopen Hcount Hn. apply Z.eqb_neq in Hn.
  unfold query_table, bind. rewrite (get_table_found _ _ _ Hopen), Hcount, Hn.
  cbv zeta. unfold engine_read at 1.
  match goal with
  | |- context [Cto_arrow t ?q0] => exists q0
  end.
  split.
  - destruct (query_to_arrow E t _ db) as [res|e]; simpl;
      [destruct (_rows_to_dicts res); simpl|];
      rewrite ?app_nil_r; reflexivity.
  - destruct (opt_str_truthy (QueryRequest.filter body)); repeat split; reflexivity.
Qed.

(** X8.  The count endpoint, once the table opens: it answers the fast
    count when the engine gives one; when the fast count raises, whatever
    the exception, it answers the length of the materialized table instead,
    and only a failure of that second read reaches the caller. *)
Theorem count_rows_falls_back name t db :
  db_open_table E name db = Ok t ->
  (forall n, table_count_rows E t db = Ok n ->
     count_rows E name db
     = (Ok (PyDict [(u "count", PyInt n)]), db, [Copen_table name; Ccount_rows t]))
  /\ (forall e, table_count_rows E t db = Err e ->
        count_rows E name db
        = (match table_to_pandas E t db with
           | Ok df => Ok (PyDict [(u "count", PyInt (Z.of_nat (length df)))])
           | Err e' => Err e'
           end,
           db, [Copen_table name; Ccount_rows t; Cto_pandas t])).
Proof.
  intros Hopen. split.
  - intros n Hn. unfold count_rows, bind. rewrite (get_table_found _ _ _ Hopen).
    unfold count_with_fallback, try_except, engine_read. rewrite Hn. reflexivity.
  - intros e He. unfold count_rows, bind. rewrite (get_table_found _ _ _ Hopen).
    unfold count_with_fallback, try_except, engine_read, bind, ret. rewrite He.
    destruct (table_to_pandas E t db); reflexivity.
Qed.

(** X9.  Whatever the engine does, a create request is answered 200, 400,
    409 or 500 and never 404; it makes at most one engine call,
    [create_table] with the name and the documents of the request as they
    came; and a 200 answer reports the number of documents sent. *)
Theorem create_table_answers name (body : TableCreateRequest.t) db :
  In (http_status (outcome (create_table E name body db))) [200; 400; 409; 500]
  /\ (calls (create_table E name body db) = []
      \/ calls (create_table E name body db)
         = [Ccreate_table name (TableCreateRequest.data body)])
  /\ (http_status (outcome (create_table E name body db)) = 200 ->
      outcome (create_table E name body db)
      = Ok (PyDict [(u "table", PyStr name);
                    (u "rows",
                     PyInt (Z.of_nat (length (TableCreateRequest.data body))))])).
Proof.
  unfold create_table, try_except, bind, engine_write, raise, ret, outcome, calls.
  destruct (TableCreateRequest.data body) as [|d ds] eqn:Hdata.
  - simpl. split; [|split]; [right; left; reflexivity | left; reflexivity | discriminate].
  - destruct (db_create_table E name (d :: ds) db) as [[tbl|e] db'].
    + simpl. split; [|split]; [left; reflexivity | right; reflexivity | reflexivity].
    + cbv beta iota.
      destruct (str_in (u "already exists") (lower (str_of_exn e))); simpl;
        (split; [|split]; [ | right; reflexivity | discriminate]).
      * right. right. left. reflexivity.
      * right. right. right. left. reflexivity.
Qed.

Lemma startswith_app (p s : pystr) : startswith p (p ++ s) = true.
Proof.
  induction p as [|c p IH]; simpl; [destruct s; reflexivity|].
  rewrite N.eqb_refl, IH. reflexivity.
Qed.

Lemma str_in_middle (p pre post : pystr) : str_in p (pre ++ p ++ post) = true.
Proof.
  induction pre as [|c pre IH]; simpl.
  - destruct (p ++ post) eqn:Hs; simpl; rewrite <- Hs, startswith_app; reflexivity.
  - rewrite IH. apply orb_true_r.
Qed.

(** X10.  The conflict test looks for the words anywhere in the engine's
    message and in any letter case: when the message of the exception is
    [pre ++ m ++ post] with [m] equal to "already exists" up to case, a
    non-empty create request is answered 409. *)
Theorem create_table_conflict_any_case name (body : TableCreateRequest.t) db
    (pre m post : pystr) db' :
  TableCreateRequest.data body <> [] ->
  db_create_table E name (TableCreateRequest.data body) db
  = (Err (Exception (pre ++ m ++ post)), db') ->
  same_ignoring_case m (u "already exists") ->
  outcome (create_table E name body db)
  = Err (HTTPException 409 (u "Table '" ++ name ++ u "' already exists")).
Proof.
  intros Hne Hcreate Hcase.
  unfold create_table, try_except, bind, engine_write, raise, ret, outcome.
  destruct (TableCreateRequest.data body) as [|d ds]; [congruence|].
  rewrite Hcreate. cbv beta iota.
  replace (str_in (u "already exists") (lower (str_of_exn (Exception (pre ++ m ++ post)))))
    with true; [reflexivity|].
  symmetry. unfold str_of_exn, lower. rewrite !map_app.
  unfold same_ignoring_case, lower in Hcase. rewrite Hcase.
  change (map lower_cp (u "already exists")) with (u "already exists").
  apply str_in_middle.
Qed.

(** X11.  Any other failure of the engine's [create_table] is answered 500
    with the engine's message as the detail, unchanged, and the engine is
    left as the failed call left it. *)
Theorem create_table_failure_is_500 name (body : TableCreateRequest.t) db e db' :
  TableCreateRequest.data body <> [] ->
  db_create_table E name (TableCreateRequest.data body) db = (Err e, db') ->
  str_in (u "already exists") (lower (str_of_exn e)) = false ->
  outcome (create_table E name body db) = Err (HTTPException 500 (str_of_exn e))
  /\ db_after (create_table E name body db) = db'.
Proof.
  intros Hne Hcreate Hmsg. split.
  - apply (create_table_internal E name body db Hne Hcreate Hmsg).
  - unfold create_table, try_except, bind, engine_write, raise, ret, db_after.
    destruct (TableCreateRequest.data body) as [|d ds]; [congruence|].
    rewrite Hcreate. cbv beta iota. rewrite Hmsg. reflexivity.
Qed.

(** X12.  Adding a non-empty list to a table that opens makes one [add]
    call with the documents as they came.  When the call returns the answer
    is [{"added": n}], [n] the number of documents sent; when it raises, the
    exception leaves the handler as it is, not turned into an
    [HTTPException].  Either way the engine is left as the call left it. *)
Theorem add_documents_outcome name t db (body : AddDocumentsRequest.t) :
  db_open_table E name db = Ok t ->
  AddDocumentsRequest.data body <> [] ->
  add_documents E name body db
  = (match fst (table_add E t (AddDocumentsRequest.data body) db) with
     | Ok _ => Ok (PyDict [(u "added",
                            PyInt (Z.of_nat (length (AddDocumentsRequest.data body))))])
     | Err e => Err e
     end,
     snd (table_add E t (AddDocumentsRequest.data body) db),
     [Copen_table name; Cadd t (AddDocumentsRequest.data body)]).
Proof.
  intros Hopen Hne. unfold add_documents, bind. rewrite (get_table_found _ _ _ Hopen).
  destruct (AddDocumentsRequest.data body) as [|d ds]; [congruence|].
  unfold engine_write, ret.
  destruct (table_add E t (d :: ds) db) as [[u0|e] db']; reflexivity.
Qed.

(** X13.  When the engine's [delete] raises (a filter it cannot parse, a
    storage failure), the exception leaves the delete handler as it is: the
    handler has no [except] around the call, so the caller sees the
    framework's answer to an unhandled exception, and the engine is left as
    the failed call left it. *)
Theorem delete_documents_failure_propagates name t db (body : DeleteRequest.t) e db' :
  db_open_table E name db = Ok t ->
  DeleteRequest.filter body <> [] ->
  table_delete E t (DeleteRequest.filter body) db = (Err e, db') ->
  delete_documents E name body db
  = (Err e, db', [Copen_table name; Cdelete t (DeleteRequest.filter body)]).
Proof.
  intros Hopen Hne Hdel. unfold delete_documents, bind.
  rewrite (get_table_found _ _ _ Hopen).
  destruct (DeleteRequest.filter body) as [|c f]; [congruence|].
  unfold str_truthy, engine_write. rewrite Hdel. reflexivity.
Qed.

Ltac split_engine_answers :=
  repeat (cbv beta iota zeta;
          match goal with
          | |- context [db_table_names E ?d] => destruct (db_table_names E d)
          | |- context [db_open_table E ?n ?d] => destruct (db_open_table E n d)
          | |- context [table_count_rows E ?t ?d] => destruct (table_count_rows E t d)
          | |- context [table_to_pandas E ?t ?d] => destruct (table_to_pandas E t d)
          | |- context [Z.eqb ?a 0] => destruct (Z.eqb a 0)
          | |- context [opt_str_truthy ?f] => destruct (opt_str_truthy f)
          | |- context [query_to_arrow E ?t ?q ?d] => destruct (query_to_arrow E t q d)
          | |- context [_rows_to_dicts ?r] => destruct (_rows_to_dicts r)
          end).

Ltac unfold_handler :=
  unfold health, list_tables, count_rows, vector_search, query_table,
    count_with_fallback, _get_table, bind, try_except, engine_read, raise, ret,
    lift, calls, db_after.

(** X14.  The handlers that read (health, list of tables, count, search,
    query) never make a call that changes what the engine stores, and they
    leave the engine state as they found it, whatever the engine answers. *)
Theorem read_handlers_do_not_write name db
    (sbody : SearchRequest.t) (qbody : QueryRequest.t) :
  (calls (health E db) = [] /\ db_after (health E db) = db)
  /\ (existsb is_mutation (calls (list_tables E db)) = false
      /\ db_after (list_tables E db) = db)
  /\ (existsb is_mutation (calls (count_rows E name db)) = false
      /\ db_after (count_rows E name db) = db)
  /\ (existsb is_mutation (calls (vector_search E name sbody db)) = false
      /\ db_after (vector_search E name sbody db) = db)
  /\ (existsb is_mutation (calls (query_table E name qbody db)) = false
      /\ db_after (query_table E name qbody db) = db).
Proof.
  repeat split; unfold_handler; split_engine_answers; reflexivity.
Qed.

(** X15.  For a search and for a query, an empty filter text is the same
    as no filter: the two requests run alike, call for call. *)
Theorem empty_filter_is_no_filter name db vector limit distance_type :
  vector_search E name
    {| SearchRequest.vector := vector; SearchRequest.limit := limit;
       SearchRequest.distance_type := distance_type;
       SearchRequest.filter := Some [] |} db
  = vector_search E name
      {| SearchRequest.vector := vector; SearchRequest.limit := limit;
         SearchRequest.distance_type := distance_type;
         SearchRequest.filter := None |} db
  /\ query_table E name
       {| QueryRequest.filter := Some []; QueryRequest.limit := limit |} db
     = query_table E name
         {| QueryRequest.filter := None; QueryRequest.limit := limit |} db.
Proof. split; reflexivity. Qed.

(** X16.  On a table that opens and has rows a search makes exactly one
    query.  It carries the vector of the request on the column "vector", the
    limit, the filter when it is not empty, and the distance type as metric
    when it is not empty (an empty distance type sets no metric). *)
Theorem search_query_shape name t db n (body : SearchRequest.t) :
  db_open_table E name db = Ok t ->
  outcome (count_with_fallback E t db) = Ok n ->
  n <> 0 ->
  exists q,
    filter is_query (calls (vector_search E name body db)) = [Cto_arrow t q]
    /\ q_vector q = Some (SearchRequest.vector body)
    /\ q_vector_column_name q = Some (u "vector")
    /\ q_metric q = (if str_truthy (SearchRequest.distance_type body)
                     then Some (SearchRequest.distance_type body) else None)
    /\ q_where q = opt_str_truthy (SearchRequest.filter body)
    /\ q_limit q = Some (SearchRequest.limit body).
Proof.
  intros Hopen Hcount Hn.
  destruct (count_with_fallback_runs t db) as (r & log & Hrun & Hlog).
  rewrite Hrun in Hcount. unfold outcome in Hcount. simpl in Hcount. subst r.
  destruct (vector_search_runs name body Hopen Hrun Hn) as (q & Hsearch & Hq).
  exists q. split; [|exact Hq].
  rewrite Hsearch. unfold calls. simpl.
  destruct Hlog as [-> | ->]; reflexivity.
Qed.

(** X17.  On a table that opens and has rows a query makes exactly one
    scan: no vector, no vector column and no metric, the filter when it is
    not empty, and the limit. *)
Theorem scan_query_shape name t db n (body : QueryRequest.t) :
  db_open_table E name db = Ok t ->
  outcome (count_with_fallback E t db) = Ok n ->
  n <> 0 ->
  exists q,
    filter is_query (calls (query_table E name body db)) = [Cto_arrow t q]
    /\ q_vector q = None
    /\ q_vector_column_name q = None
    /\ q_metric q = None
    /\ q_where q = opt_str_truthy (QueryRequest.filter body)
    /\ q_limit q = Some (QueryRequest.limit body).
Proof.
  intros Hopen Hcount Hn.
  destruct (count_with_fallback_runs t db) as (r & log & Hrun & Hlog).
  rewrite Hrun in Hcount. unfold outcome in Hcount. simpl in Hcount. subst r.
  destruct (query_table_runs name body Hopen Hrun Hn) as (q & Hquery & Hq).
  exists q. split; [|exact Hq].
  rewrite Hquery. unfold calls. simpl.
  destruct Hlog as [-> | ->]; reflexivity.
Qed.

Lemma query_of_log name (t : Table E) log q q0 :
  log = [Ccount_rows t] \/ log = [Ccount_rows t; Cto_pandas t] ->
  In (Cto_arrow t q) (Copen_table name :: log ++ [Cto_arrow t q0]) ->
  q = q0.
Proof.
  intros Hlog [Hin|Hin]; [discriminate|].
  apply in_app_or in Hin. destruct Hin as [Hin|Hin].
  - destruct Hlog as [-> | ->]; simpl in Hin;
      repeat (destruct Hin as [Hin|Hin]; [discriminate|]); contradiction.
  - destruct Hin as [Hin|[]]. congruence.
Qed.

(** X18.  When the engine refuses the query of a search or of a scan, the
    exception leaves the handler as it is (the framework answers 500); the
    handler does not turn it into a 404 or an empty result. *)
Theorem query_failure_propagates name t db n
    (sbody : SearchRequest.t) (qbody : QueryRequest.t) :
  db_open_table E name db = Ok t ->
  outcome (count_with_fallback E t db) = Ok n ->
  n <> 0 ->
  (forall q e, In (Cto_arrow t q) (calls (vector_search E name sbody db)) ->
               query_to_arrow E t q db = Err e ->
               outcome (vector_search E name sbody db) = Err e)
  /\ (forall q e, In (Cto_arrow t q) (calls (query_table E name qbody db)) ->
                  query_to_arrow E t q db = Err e ->
                  outcome (query_table E name qbody db) = Err e).
Proof.
  intros Hopen Hcount Hn.
  destruct (count_with_fallback_runs t db) as (r & log & Hrun & Hlog).
  rewrite Hrun in Hcount. unfold outcome in Hcount. simpl in Hcount. subst r.
  destruct (vector_search_runs name sbody Hopen Hrun Hn) as (qs & Hsearch & _).
  destruct (query_table_runs name qbody Hopen Hrun Hn) as (qq & Hquery & _).
  rewrite Hsearch, Hquery. unfold calls, outcome, fst, snd.
  split; intros q e Hin Herr; apply (query_of_log _ Hlog) in Hin; subst q;
    rewrite Herr; reflexivity.
Qed.

(** X19.  On a table that opens and has rows, when the engine answers the
    query with records, the search and the scan answer what the normalizer
    makes of the records: when they return, the answer is
    [{"results": rows}] with as many rows as records, in the same order, each
    the normalized record; and they return whenever every record is one the
    normalizer returns on. *)
Theorem results_are_normalized_records name t db n
    (sbody : SearchRequest.t) (qbody : QueryRequest.t) :
  db_open_table E name db = Ok t ->
  outcome (count_with_fallback E t db) = Ok n ->
  n <> 0 ->
  (forall q records,
     In (Cto_arrow t q) (calls (vector_search E name sbody db)) ->
     query_to_arrow E t q db = Ok (HasToPandas records) ->
     (forall body, outcome (vector_search E name sbody db) = Ok body ->
        exists rows,
          body = PyDict [(u "results", PyList rows)]
          /\ Forall2 (fun r o => _to_serializable r = Ok o) records rows)
     /\ (forallb convertible records = true ->
         exists rows,
           outcome (vector_search E name sbody db)
           = Ok (PyDict [(u "results", PyList rows)])))
  /\ (forall q records,
        In (Cto_arrow t q) (calls (query_table E name qbody db)) ->
        query_to_arrow E t q db = Ok (HasToPandas records) ->
        (forall body, outcome (query_table E name qbody db) = Ok body ->
           exists rows,
             body = PyDict [(u "results", PyList rows)]
             /\ Forall2 (fun r o => _to_serializable r = Ok o) records rows)
        /\ (forallb convertible records = true ->
            exists rows,
              outcome (query_table E name qbody db)
              = Ok (PyDict [(u "results", PyList rows)]))).
Proof.
  intros Hopen Hcount Hn.
  destruct (count_with_fallback_runs t db) as (r & log & Hrun & Hlog).
  rewrite Hrun in Hcount. unfold outcome in Hcount. simpl in Hcount. subst r.
  destruct (vector_search_runs name sbody Hopen Hrun Hn) as (qs & Hsearch & _).
  destruct (query_table_runs name qbody Hopen Hrun Hn) as (qq & Hquery & _).
  rewrite Hsearch, Hquery. unfold calls, outcome, fst, snd.
  assert (Hnorm : forall records body,
            rbind (_rows_to_dicts (HasToPandas records))
                  (fun rows => Ok (PyDict [(u "results", PyList rows)])) = Ok body ->
            exists rows,
              body = PyDict [(u "results", PyList rows)]
              /\ Forall2 (fun r o => _to_serializable r = Ok o) records rows).
  { intros records body H. unfold _rows_to_dicts in H. simpl in H.
    destruct (mapM _to_serializable records) as [rows|e] eqn:Hrows; simpl in H;
      [|discriminate].
    injection H as <-. exists rows. split; [reflexivity | apply mapM_Forall2; exact Hrows]. }
  assert (Hret : forall records,
            forallb convertible records = true ->
            exists rows,
              rbind (_rows_to_dicts (HasToPandas records))
                    (fun rows => Ok (PyDict [(u "results", PyList rows)]))
              = Ok (PyDict [(u "results", PyList rows)])).
  { intros records H. destruct (mapM_convertible records H) as [rows Hrows].
    exists rows. unfold _rows_to_dicts. simpl. rewrite Hrows. reflexivity. }
  split; intros q records Hin Hok; apply (query_of_log _ Hlog) in Hin; subst q;
    rewrite Hok; simpl rbind at 1;
    (split; [intros body Hbody; apply Hnorm; exact Hbody | apply Hret]).
Qed.

End MoreHandlers.

(* ------------------------------------------------------------------------- *)
(** * The further properties on the in-memory engines *)

(** Counting [docs] on an engine without the fast count. *)
Lemma count_rows_falls_back_witness :
  count_rows MemDB.engine (u "docs") MemDB.sample_slow_count
  = (Ok (PyDict [(u "count", PyInt 2)]), MemDB.sample_slow_count,
     [Copen_table (u "docs"); Ccount_rows (u "docs"); Cto_pandas (u "docs")]).
Proof.
  exact (proj2 (@count_rows_falls_back MemDB.engine (u "docs") (u "docs")
                  MemDB.sample_slow_count eq_refl)
           (Exception (u "count_rows is not supported")) eq_refl).
Defined.

(** Creating [docs] again: the engine's message holds the words after the
    table name. *)
Lemma create_table_conflict_any_case_witness :
  outcome (create_table MemDB.engine (u "docs")
             {| TableCreateRequest.data := [MemDB.world] |} MemDB.sample)
  = Err (HTTPException 409 (u "Table '" ++ u "docs" ++ u "' already exists")).
Proof.
  apply (@create_table_conflict_any_case MemDB.engine (u "docs")
           {| TableCreateRequest.data := [MemDB.world] |} MemDB.sample
           (u "Table 'docs' ") (u "already exists") [] MemDB.sample).
  - discriminate.
  - reflexivity.
  - reflexivity.
Defined.

(** Creating a new table on a read-only storage root. *)
Lemma create_table_failure_is_500_witness :
  outcome (create_table MemDB.engine (u "notes")
             {| TableCreateRequest.data := [MemDB.hello] |} MemDB.sample_read_only)
  = Err (HTTPException 500 (u "Permission denied (os error 13)"))
  /\ db_after (create_table MemDB.engine (u "notes")
                 {| TableCreateRequest.data := [MemDB.hello] |} MemDB.sample_read_only)
     = MemDB.sample_read_only.
Proof.
  apply (@create_table_failure_is_500 MemDB.engine (u "notes")
           {| TableCreateRequest.data := [MemDB.hello] |} MemDB.sample_read_only
           (Exception (u "Permission denied (os error 13)")) MemDB.sample_read_only).
  - discriminate.
  - reflexivity.
  - reflexivity.
Defined.

(** Adding one document to [docs]. *)
Lemma add_documents_outcome_witness :
  outcome (add_documents MemDB.engine (u "docs")
             {| AddDocumentsRequest.data := [MemDB.hello] |} MemDB.sample)
  = Ok (PyDict [(u "added", PyInt 1)])
  /\ table_count_rows MemDB.engine (u "docs")
       (db_after (add_documents MemDB.engine (u "docs")
                    {| AddDocumentsRequest.data := [MemDB.hello] |} MemDB.sample))
     = Ok 3.
Proof.
  rewrite (@add_documents_outcome MemDB.engine (u "docs") (u "docs") MemDB.sample
             {| AddDocumentsRequest.data := [MemDB.hello] |} eq_refl
             ltac:(discriminate)).
  split; reflexivity.
Defined.

(** Deleting from [docs] on a read-only storage root. *)
Lemma delete_documents_failure_propagates_witness :
  delete_documents MemDB.engine (u "docs")
    {| DeleteRequest.filter := u "archived" |} MemDB.sample_read_only
  = (Err (Exception (u "Permission denied (os error 13)")), MemDB.sample_read_only,
     [Copen_table (u "docs"); Cdelete (u "docs") (u "archived")]).
Proof.
  apply (@delete_documents_failure_propagates MemDB.engine (u "docs") (u "docs")
           MemDB.sample_read_only {| DeleteRequest.filter := u "archived" |}).
  - reflexivity.
  - discriminate.
  - reflexivity.
Defined.

(** The query of a search of [docs]. *)
Lemma search_query_shape_witness :
  exists q,
    filter is_query
      (calls (vector_search MemDB.engine (u "docs") MemDB.sample_search MemDB.sample))
    = [Cto_arrow (u "docs") q]
    /\ q_vector q = Some [0.5; 0.25; 0.125]%float
    /\ q_vector_column_name q = Some (u "vector")
    /\ q_metric q = Some (u "cosine")
    /\ q_where q = Some (u "archived")
    /\ q_limit q = Some 1.
Proof.
  apply (@search_query_shape MemDB.engine (u "docs") (u "docs") MemDB.sample 2
           MemDB.sample_search).
  - reflexivity.
  - reflexivity.
  - discriminate.
Defined.

(** The query of a scan of [docs]. *)
Lemma scan_query_shape_witness :
  exists q,
    filter is_query
      (calls (query_table MemDB.engine (u "docs") MemDB.sample_query MemDB.sample))
    = [Cto_arrow (u "docs") q]
    /\ q_vector q = None
    /\ q_vector_column_name q = None
    /\ q_metric q = None
    /\ q_where q = Some (u "archived")
    /\ q_limit q = Some 100.
Proof.
  apply (@scan_query_shape MemDB.engine (u "docs") (u "docs") MemDB.sample 2
           MemDB.sample_query).
  - reflexivity.
  - reflexivity.
  - discriminate.
Defined.

(** A scan of [docs] by a field no row has, on the engine that checks the
    filter: the engine's refusal is the outcome. *)
Lemma query_failure_propagates_witness :
  outcome (query_table StrictDB.engine (u "docs")
             {| QueryRequest.filter := Some (u "rank"); QueryRequest.limit := 5 |}
             MemDB.sample)
  = Err (Exception (u "No field named " ++ u "rank")).
Proof.
  apply (proj2 (@query_failure_propagates StrictDB.engine (u "docs") (u "docs")
                  MemDB.sample 2 MemDB.sample_search
                  {| QueryRequest.filter := Some (u "rank"); QueryRequest.limit := 5 |}
                  eq_refl eq_refl ltac:(discriminate))
           (limit 5 (where_ (u "rank") (search None None)))).
  - right. right. left. reflexivity.
  - reflexivity.
Defined.

(** A search of [docs] for archived rows: one record, normalized. *)
Lemma results_are_normalized_records_witness :
  exists rows,
    outcome (vector_search MemDB.engine (u "docs") MemDB.sample_search MemDB.sample)
    = Ok (PyDict [(u "results", PyList rows)]).
Proof.
  apply (proj2 (proj1 (@results_are_normalized_records MemDB.engine (u "docs") (u "docs")
                  MemDB.sample 2 MemDB.sample_search MemDB.sample_query
                  eq_refl eq_refl ltac:(discriminate))
           (limit 1 (where_ (u "archived")
                       (metric (u "cosine")
                          (search (Some [0.5; 0.25; 0.125]%float) (Some (u "vector"))))))
           [PyDict MemDB.world]
           ltac:(right; right; left; reflexivity) eq_refl)).
  reflexivity.
Defined.
